(** * Account workflow of the blog backend

    A shallow embedding of [blog-backend/controllers/authController.js]:
    the four request handlers [register], [login], [getMe] and
    [updateProfile], over an explicit world holding the user collection
    and a chronological log of the calls made to the collaborators
    (user repository, media host). *)

From Stdlib Require Import String Ascii List NArith Bool Lia.
From stdpp Require Import base option list gmap strings.

Local Open Scope string_scope.
Local Open Scope list_scope.

(** ** JavaScript string primitives used by the controllers *)

Module Js.

(** [s.split(sep)] for a one-character separator: always at least one
    segment, the empty string splits into one empty segment. *)
Fixpoint split (sep : ascii) (s : string) : list string :=
  match s with
  | EmptyString => [EmptyString]
  | String c rest =>
      if Ascii.eqb c sep then EmptyString :: split sep rest
      else match split sep rest with
           | [] => [String c EmptyString]
           | seg :: segs => String c seg :: segs
           end
  end.

(** [a.slice(-n)]: the last [n] elements, the whole array when it is
    shorter. *)
Definition slice_last {A} (n : nat) (a : list A) : list A :=
  drop (length a - n) a.

(** [a.join(sep)]. *)
Definition join (sep : string) (a : list string) : string :=
  String.concat sep a.

(** [a[0]] on the result of a split, which is never empty. *)
Definition first (a : list string) : string := hd EmptyString a.

(** [s.startsWith(p)]. *)
Definition startsWith (p s : string) : bool := String.prefix p s.

(** Truthiness of a value that is a string or [undefined]. *)
Definition truthy (v : option string) : bool :=
  match v with
  | Some s => negb (String.eqb s "")
  | None => false
  end.

(** [v || d] where [d] is a string. *)
Definition or_else (v : option string) (d : string) : string :=
  match v with
  | Some s => if String.eqb s "" then d else s
  | None => d
  end.

End Js.

(** The identifier handed to the media host when an old avatar is
    removed (lines 136-140 of the controller). *)
Definition oldPublicId (avatar : string) : string :=
  Js.first (Js.split "." (Js.join "/" (Js.slice_last 2 (Js.split "/" avatar)))).

(** ** Data model *)

Definition Id := N.
Definition Buffer := list Byte.byte.

(** What a controller can throw or see thrown by a collaborator. *)
Inductive Exn :=
| TypeError (msg : string)
| MongoError (msg : string)
| CloudinaryError (msg : string).

(** A user as the collection stores it: the password is the salted hash. *)
Module Stored.
Record t := mk {
  _id : Id;
  name : string;
  email : string;
  password : string;
  bio : string;
  avatar : string;
  createdAt : N;
}.
End Stored.

(** A user document in memory, as a query returns it. The password path
    is [None] (undefined) unless it was selected or assigned;
    [passwordModified] is what [isModified('password')] answers. *)
Module Doc.
Record t := mk {
  _id : Id;
  name : string;
  email : string;
  password : option string;
  bio : string;
  avatar : string;
  createdAt : N;
  passwordModified : bool;
}.

Definition set_name (v : string) (d : t) : t :=
  mk (_id d) v (email d) (password d) (bio d) (avatar d) (createdAt d)
     (passwordModified d).
Definition set_bio (v : string) (d : t) : t :=
  mk (_id d) (name d) (email d) (password d) v (avatar d) (createdAt d)
     (passwordModified d).
Definition set_avatar (v : string) (d : t) : t :=
  mk (_id d) (name d) (email d) (password d) (bio d) v (createdAt d)
     (passwordModified d).
Definition set_password (v : string) (d : t) : t :=
  mk (_id d) (name d) (email d) (Some v) (bio d) (avatar d) (createdAt d)
     true.
End Doc.

(** Values of the properties of a response payload. *)
Inductive JsVal :=
| JStr (s : string)
| JId (i : Id)
| JDate (t : N).

(** The outcome of a handler: a JSON response written with a status
    code, or an error passed to [next]. *)
Inductive Response :=
| Json (status : N) (success : bool) (message : string)
       (data : option (gmap string JsVal))
| Next (error : Exn).

(** [utils/apiResponse.js] is not part of the sources. *)
Module ApiResponse.
(** Modelled from the spec: the success envelope
    [{ success: true, message, data }], sent with the given status. *)
Definition success (status : N) (message : string)
           (data : list (string * JsVal)) : Response :=
  Json status true message (Some (list_to_map data)).
(** Modelled from the spec: the error envelope
    [{ success: false, message }], sent with the given status. *)
Definition error (status : N) (message : string) : Response :=
  Json status false message None.
End ApiResponse.

(** The parts of an HTTP request the controllers read. [body] maps the
    submitted fields to their text, as a form upload delivers them; a
    key that is absent reads as [undefined].
    [file] is the uploaded avatar, when there is one. [user] is set by
    the authentication middleware on the private routes. *)
Module File.
Record t := mk { buffer : Buffer }.
End File.

Module Request.
Record t := mk {
  body : gmap string string;
  file : option File.t;
  user : Id;
}.
End Request.

(** Calls made to the collaborators, with the outcome of the calls to the
    media host. *)
Inductive Event :=
| Create (name email password : option string) (bio avatar : string)
| Save (d : Doc.t)
| Upload (buffer : Buffer) (folder : string) (outcome : Exn + string)
| Delete (publicId : string) (outcome : option Exn).

Record World := mkWorld {
  users : list Stored.t;
  log : list Event;
  clock : N;
}.

(** The imported functions whose code is outside the controller. The
    media host answers a call from the history of calls so far; it may
    fail on any call. So may the repository on a write: [writeOutcome]
    is its answer to the [Create] or [Save] call a log ends with, [None]
    when it accepts the write and the error it rejects it with
    otherwise (a validator of the schema, a lost connection). *)
Class Collaborators := {
  uploadOutcome : list Event -> Buffer -> string -> Exn + string;
  deleteOutcome : list Event -> string -> option Exn;
  writeOutcome : list Event -> option Exn;
  generateToken : Id -> string;
  hashPassword : string -> string;
  comparePassword : string -> string -> bool;
}.

(** ** State and exception monad of an async handler body *)

Definition M (A : Type) : Type := World -> (Exn + A) * World.

Definition ret {A} (a : A) : M A := fun w => (inr a, w).

Definition throw {A} (e : Exn) : M A := fun w => (inl e, w).

Definition bind {A B} (m : M A) (k : A -> M B) : M B :=
  fun w => match m w with
           | (inr a, w') => k a w'
           | (inl e, w') => (inl e, w')
           end.

(** [try { m } catch (err) { h err }] *)
Definition try_catch {A} (m : M A) (h : Exn -> M A) : M A :=
  fun w => match m w with
           | (inr a, w') => (inr a, w')
           | (inl e, w') => h e w'
           end.

Definition emit (ev : Event) : M unit :=
  fun w => (inr tt, mkWorld (users w) (log w ++ [ev]) (clock w)).

Declare Scope js_scope.
Delimit Scope js_scope with js.
Notation "'let*' x ':=' m 'in' k" := (bind m (fun x => k))
  (at level 10, x pattern, m at level 100, k at level 200) : js_scope.
Notation "m ';;' k" := (bind m (fun _ => k))
  (at level 100, k at level 200, right associativity) : js_scope.
Local Open Scope js_scope.

(** The [try { ... } catch (error) { next(error) }] around every handler. *)
Definition handler (body : M Response) (w : World) : Response * World :=
  match body w with
  | (inr r, w') => (r, w')
  | (inl e, w') => (Next e, w')
  end.

(** Reading property [prop] of a value that may be [null]. *)
Definition deref {A} (o : option A) (prop : string) : M A :=
  match o with
  | Some a => ret a
  | None =>
      throw (TypeError ("Cannot read properties of null (reading '"
                        +:+ prop +:+ "')"))
  end.

(** ** Collaborators *)

(** [models/User.js] is not part of the sources. The repository of the
    specification keeps the users in a collection, requires name, email
    and password at creation, keeps emails unique, stores the password as
    a salted hash and leaves it out of a query result unless the query
    selects it. *)
Module User.

(** Modelled from the spec: the document a query returns for a stored
    record, the password left out unless selected. *)

Definition toDoc (selectPassword : bool) (r : Stored.t) : Doc.t :=
  Doc.mk (Stored._id r) (Stored.name r) (Stored.email r)
         (if selectPassword then Some (Stored.password r) else None)
         (Stored.bio r) (Stored.avatar r) (Stored.createdAt r) false.

Definition hasEmail (email : option string) (r : Stored.t) : bool :=
  match email with
  | Some e => String.eqb (Stored.email r) e
  | None => false
  end.

Definition hasId (id : Id) (r : Stored.t) : bool := N.eqb (Stored._id r) id.

(** The stored record of an identifier. *)
Definition lookup (id : Id) (l : list Stored.t) : option Stored.t :=
  List.find (hasId id) l.

(** The stored record of an email address: the first one carrying it. *)
Definition byEmail (email : option string) (l : list Stored.t)
  : option Stored.t :=
  List.find (hasEmail email) l.

(** Modelled from the spec: [User.findOne({ email })], with
    [.select('+password')] when [selectPassword] is set. *)
Definition findOne (email : option string) (selectPassword : bool)
  : M (option Doc.t) :=
  fun w => (inr (toDoc selectPassword <$> byEmail email (users w)), w).

(** Modelled from the spec: [User.findById(id)]. *)
Definition findById (id : Id) : M (option Doc.t) :=
  fun w => (inr (toDoc false <$> lookup id (users w)), w).

Definition freshId (l : list Stored.t) : Id :=
  N.succ (foldr N.max 0%N (Stored._id <$> l)).

(** Modelled from the spec: [User.create({ name, email, password, bio,
    avatar })]. Presence of the required fields and uniqueness of the
    email are enforced here, and the repository may reject the write
    for a reason of its own; the record gets a fresh identifier, the
    hash of the password and the time of the clock. *)
Definition create `{Collaborators} (name email password : option string)
           (bio avatar : string) : M (option Doc.t) :=
  emit (Create name email password bio avatar) ;;
  match name, email, password with
  | Some n, Some e, Some p =>
      if String.eqb n "" || String.eqb e "" || String.eqb p ""
      then throw (MongoError "ValidationError")
      else fun w =>
        if existsb (hasEmail email) (users w)
        then (inl (MongoError "E11000 duplicate key"), w)
        else
          match writeOutcome (log w) with
          | Some err => (inl err, w)
          | None =>
              let r := Stored.mk (freshId (users w)) n e (hashPassword p)
                                 bio avatar (clock w) in
              (inr (Some (toDoc true r)),
               mkWorld (users w ++ [r]) (log w) (clock w))
          end
  | _, _, _ => throw (MongoError "ValidationError")
  end.

(** Modelled from the spec: [user.save()] writes the document back over
    its stored record, hashing the password when it was assigned, unless
    the repository rejects the write. *)
Definition save `{Collaborators} (d : Doc.t) : M Doc.t :=
  emit (Save d) ;;
  fun w =>
    match lookup (Doc._id d) (users w) with
    | None => (inl (MongoError "DocumentNotFoundError"), w)
    | Some r =>
        match writeOutcome (log w) with
        | Some err => (inl err, w)
        | None =>
            let pw := match Doc.passwordModified d, Doc.password d with
                      | true, Some p => hashPassword p
                      | _, _ => Stored.password r
                      end in
            let r' := Stored.mk (Doc._id d) (Doc.name d) (Doc.email d) pw
                                (Doc.bio d) (Doc.avatar d)
                                (Stored.createdAt r) in
            let d' := Doc.mk (Doc._id d) (Doc.name d) (Doc.email d)
                             (if Doc.passwordModified d then Some pw
                              else Doc.password d)
                             (Doc.bio d) (Doc.avatar d) (Doc.createdAt d)
                             false in
            (inr d',
             mkWorld
               ((fun x => if hasId (Doc._id d) x then r' else x) <$> users w)
               (log w) (clock w))
        end
    end.

(** Modelled from the spec: [user.matchPassword(entered)] verifies the
    entered password against the loaded hash. *)
Definition matchPassword `{Collaborators} (d : Doc.t) (entered : option string)
  : M bool :=
  match Doc.password d, entered with
  | Some h, Some p => ret (comparePassword p h)
  | _, _ => throw (TypeError "Illegal arguments")
  end.

End User.

(** [utils/cloudinary.js] is not part of the sources. *)
Module UploadResult.
Record t := mk { url : string }.
End UploadResult.

(** Modelled from the spec: [upload(buffer, namespace)] returns
    [{ url }] or fails; the call is logged with the outcome the media
    host gives it. *)
Definition uploadToCloudinary `{Collaborators} (buffer : Buffer) (folder : string)
  : M UploadResult.t :=
  fun w =>
    let r := uploadOutcome (log w) buffer folder in
    let w' := mkWorld (users w) (log w ++ [Upload buffer folder r]) (clock w) in
    match r with
    | inl e => (inl e, w')
    | inr u => (inr (UploadResult.mk u), w')
    end.

(** Modelled from the spec: [delete(identifier)] returns nothing or
    fails; the call is logged with its outcome. *)
Definition deleteFromCloudinary `{Collaborators} (publicId : string) : M unit :=
  fun w =>
    let r := deleteOutcome (log w) publicId in
    let w' := mkWorld (users w) (log w ++ [Delete publicId r]) (clock w) in
    match r with
    | Some e => (inl e, w')
    | None => (inr tt, w')
    end.

(** ** The controllers *)

(** POST /api/auth/register *)
Definition register `{Collaborators} (req : Request.t)
  : World -> Response * World :=
  handler (
    let name := Request.body req !! "name" in
    let email := Request.body req !! "email" in
    let password := Request.body req !! "password" in
    let bio := Request.body req !! "bio" in
    if negb (Js.truthy name) || negb (Js.truthy email)
       || negb (Js.truthy password)
    then ret (ApiResponse.error 400 "Please provide all required fields")
    else
      let* userExists := User.findOne email false in
      match userExists with
      | Some _ => ret (ApiResponse.error 400 "User already exists")
      | None =>
          let* avatarUrl :=
            match Request.file req with
            | Some file =>
                let* uploadResult :=
                  uploadToCloudinary (File.buffer file) "avatars" in
                ret (UploadResult.url uploadResult)
            | None => ret ""
            end in
          let* user :=
            User.create name email password (Js.or_else bio "") avatarUrl in
          match user with
          | Some user =>
              let token := generateToken (Doc._id user) in
              ret (ApiResponse.success 201 "User registered successfully"
                     [("_id", JId (Doc._id user));
                      ("name", JStr (Doc.name user));
                      ("email", JStr (Doc.email user));
                      ("bio", JStr (Doc.bio user));
                      ("avatar", JStr (Doc.avatar user));
                      ("token", JStr token)])
          | None => ret (ApiResponse.error 400 "Invalid user data")
          end
      end).

(** POST /api/auth/login *)
Definition login `{Collaborators} (req : Request.t)
  : World -> Response * World :=
  handler (
    let email := Request.body req !! "email" in
    let password := Request.body req !! "password" in
    if negb (Js.truthy email) || negb (Js.truthy password)
    then ret (ApiResponse.error 400 "Please provide email and password")
    else
      let* user := User.findOne email true in
      let* ok :=
        match user with
        | Some user => User.matchPassword user password
        | None => ret false
        end in
      match user, ok with
      | Some user, true =>
          let token := generateToken (Doc._id user) in
          ret (ApiResponse.success 200 "Login successful"
                 [("_id", JId (Doc._id user));
                  ("name", JStr (Doc.name user));
                  ("email", JStr (Doc.email user));
                  ("bio", JStr (Doc.bio user));
                  ("avatar", JStr (Doc.avatar user));
                  ("token", JStr token)])
      | _, _ => ret (ApiResponse.error 401 "Invalid email or password")
      end).

(** GET /api/auth/me *)
Definition getMe `{Collaborators} (req : Request.t)
  : World -> Response * World :=
  handler (
    let* user := User.findById (Request.user req) in
    let* user := deref user "_id" in
    ret (ApiResponse.success 200 "User profile retrieved"
           [("_id", JId (Doc._id user));
            ("name", JStr (Doc.name user));
            ("email", JStr (Doc.email user));
            ("bio", JStr (Doc.bio user));
            ("avatar", JStr (Doc.avatar user));
            ("createdAt", JDate (Doc.createdAt user))])).

(** PUT /api/auth/profile *)
Definition updateProfile `{Collaborators} (req : Request.t)
  : World -> Response * World :=
  handler (
    let* user := User.findById (Request.user req) in
    match user with
    | Some user =>
        let user :=
          Doc.set_name (Js.or_else (Request.body req !! "name") (Doc.name user))
                       user in
        let user :=
          Doc.set_bio (match Request.body req !! "bio" with
                       | Some bio => bio
                       | None => Doc.bio user
                       end) user in
        let* user :=
          match Request.file req with
          | Some file =>
              (if negb (String.eqb (Doc.avatar user) "")
                  && negb (Js.startsWith "http" (Doc.avatar user))
               then try_catch
                      (deleteFromCloudinary (oldPublicId (Doc.avatar user)))
                      (fun _ => ret tt)
               else ret tt) ;;
              let* uploadResult :=
                uploadToCloudinary (File.buffer file) "avatars" in
              ret (Doc.set_avatar (UploadResult.url uploadResult) user)
          | None => ret user
          end in
        let user :=
          match Request.body req !! "password" with
          | Some password =>
              if Js.truthy (Some password)
              then Doc.set_password password user
              else user
          | None => user
          end in
        let* updatedUser := User.save user in
        ret (ApiResponse.success 200 "Profile updated successfully"
               [("_id", JId (Doc._id updatedUser));
                ("name", JStr (Doc.name updatedUser));
                ("email", JStr (Doc.email updatedUser));
                ("bio", JStr (Doc.bio updatedUser));
                ("avatar", JStr (Doc.avatar updatedUser))])
    | None => ret (ApiResponse.error 404 "User not found")
    end).

(** ** A concrete environment, for running the controllers *)

Definition demoCollaborators (uploadOk deleteOk : bool) : Collaborators := {|
  uploadOutcome := fun _ _ folder =>
    if uploadOk then inr ("https://media.example/" +:+ folder +:+ "/new.png")
    else inl (CloudinaryError "upload failed");
  deleteOutcome := fun _ _ =>
    if deleteOk then None else Some (CloudinaryError "delete failed");
  writeOutcome := fun _ => None;
  generateToken := fun _ => "signed-token";
  hashPassword := fun p => "hash:" +:+ p;
  comparePassword := fun p h => String.eqb ("hash:" +:+ p) h;
|}.

(** The same environment with a repository that rejects every write. *)
Definition rejectingCollaborators : Collaborators := {|
  uploadOutcome := fun _ _ folder =>
    inr ("https://media.example/" +:+ folder +:+ "/new.png");
  deleteOutcome := fun _ _ => None;
  writeOutcome := fun _ => Some (MongoError "ValidationError");
  generateToken := fun _ => "signed-token";
  hashPassword := fun p => "hash:" +:+ p;
  comparePassword := fun p h => String.eqb ("hash:" +:+ p) h;
|}.

Definition alice : Stored.t :=
  Stored.mk 1%N "Alice" "alice@example.org" "hash:secret" "hello"
            "uploads/avatars/old.png" 100%N.

Definition bob : Stored.t :=
  Stored.mk 2%N "Bob" "bob@example.org" "hash:hunter2" ""
            "https://media.example/avatars/bob.png" 200%N.

Definition demoWorld : World := mkWorld [alice; bob] [] 1000%N.

Definition demoFile : File.t := File.mk [Byte.x89; Byte.x50].

(** ** Vocabulary of the properties *)

(** The calls a handler makes on a world: what it appends to the log. *)
Definition calls (h : World -> Response * World) (w : World) : list Event :=
  drop (length (log w)) (log (snd (h w))).

(** A required field is missing when its key is absent or its value is
    the empty string; it is present otherwise. *)
Definition missing (v : option string) : Prop := v = None \/ v = Some "".

Definition present (v : option string) : Prop :=
  exists s, v = Some s /\ s <> "".

(** The calls to the media host, without their outcomes. *)
Inductive MediaCall :=
| CallDelete (publicId : string)
| CallUpload (buffer : Buffer) (folder : string).

Fixpoint mediaCalls (l : list Event) : list MediaCall :=
  match l with
  | [] => []
  | Delete p _ :: l' => CallDelete p :: mediaCalls l'
  | Upload b f _ :: l' => CallUpload b f :: mediaCalls l'
  | _ :: l' => mediaCalls l'
  end.

(** A string without a dot. *)
Fixpoint noDot (s : string) : Prop :=
  match s with
  | EmptyString => True
  | String c rest => c <> "."%char /\ noDot rest
  end.

(** The identifier in the words of the specification: the trailing two
    path segments with the file-extension suffix stripped, the suffix
    being the last dot of the file name and what follows it. *)
Definition stripExtension (fileName : string) : string :=
  match Js.split "." fileName with
  | [] | [_] => fileName
  | parts => Js.join "." (removelast parts)
  end.

Definition specPublicId (avatar : string) : string :=
  let segments := Js.slice_last 2 (Js.split "/" avatar) in
  Js.join "/" (removelast segments ++ [stripExtension (List.last segments "")]).

(** The log once the old avatar has been dealt with. *)
Definition logAfterCleanup `{Collaborators} (avatar : string) (l : list Event)
  : list Event :=
  if negb (String.eqb avatar "") && negb (Js.startsWith "http" avatar)
  then l ++ [Delete (oldPublicId avatar) (deleteOutcome l (oldPublicId avatar))]
  else l.

(** The document handed to [save] and the record it leaves in the
    collection, for a stored user [u] and the avatar [avatar]. *)
Definition docToSave (req : Request.t) (u : Stored.t) (avatar : string) : Doc.t :=
  let user := Doc.mk (Stored._id u)
                     (Js.or_else (Request.body req !! "name") (Stored.name u))
                     (Stored.email u) None
                     (default (Stored.bio u) (Request.body req !! "bio"))
                     avatar (Stored.createdAt u) false in
  if Js.truthy (Request.body req !! "password")
  then Doc.set_password (default "" (Request.body req !! "password")) user
  else user.

Definition recordSaved `{Collaborators} (req : Request.t) (u : Stored.t)
           (avatar : string) : Stored.t :=
  Stored.mk (Stored._id u)
            (Js.or_else (Request.body req !! "name") (Stored.name u))
            (Stored.email u)
            (if Js.truthy (Request.body req !! "password")
             then hashPassword (default "" (Request.body req !! "password"))
             else Stored.password u)
            (default (Stored.bio u) (Request.body req !! "bio"))
            avatar (Stored.createdAt u).

Definition savedOutcome `{Collaborators} (req : Request.t) (w : World)
           (u : Stored.t) (avatar : string) (l : list Event)
  : Response * World :=
  (ApiResponse.success 200 "Profile updated successfully"
     [("_id", JId (Stored._id u));
      ("name", JStr (Js.or_else (Request.body req !! "name") (Stored.name u)));
      ("email", JStr (Stored.email u));
      ("bio", JStr (default (Stored.bio u) (Request.body req !! "bio")));
      ("avatar", JStr avatar)],
   mkWorld ((fun x => if User.hasId (Stored._id u) x
                      then recordSaved req u avatar else x) <$> users w)
           (l ++ [Save (docToSave req u avatar)]) (clock w)).

(** The outcome of the save of an update: that of a save the repository
    accepts, or the error it rejects the save with, passed to [next]. *)
Definition saveStep `{Collaborators} (req : Request.t) (w : World)
           (u : Stored.t) (avatar : string) (l : list Event)
  : Response * World :=
  match writeOutcome (l ++ [Save (docToSave req u avatar)]) with
  | None => savedOutcome req w u avatar l
  | Some e =>
      (Next e,
       mkWorld (users w) (l ++ [Save (docToSave req u avatar)]) (clock w))
  end.

(** The record a registration adds to the collection and the outcome of
    the registration, for the avatar URL [avatar] and the log [l] reached
    before the creation. *)
Definition recordCreated `{Collaborators} (req : Request.t) (w : World)
           (avatar : string) : Stored.t :=
  Stored.mk (User.freshId (users w))
            (default "" (Request.body req !! "name"))
            (default "" (Request.body req !! "email"))
            (hashPassword (default "" (Request.body req !! "password")))
            (Js.or_else (Request.body req !! "bio") "")
            avatar (clock w).

Definition createdOutcome `{Collaborators} (req : Request.t) (w : World)
           (avatar : string) (l : list Event) : Response * World :=
  (ApiResponse.success 201 "User registered successfully"
     [("_id", JId (User.freshId (users w)));
      ("name", JStr (default "" (Request.body req !! "name")));
      ("email", JStr (default "" (Request.body req !! "email")));
      ("bio", JStr (Js.or_else (Request.body req !! "bio") ""));
      ("avatar", JStr avatar);
      ("token", JStr (generateToken (User.freshId (users w))))],
   mkWorld (users w ++ [recordCreated req w avatar])
           (l ++ [Create (Request.body req !! "name")
                         (Request.body req !! "email")
                         (Request.body req !! "password")
                         (Js.or_else (Request.body req !! "bio") "") avatar])
           (clock w)).

(** The call a registration makes to [User.create] and the outcome of
    the creation. *)
Definition createCall (req : Request.t) (avatar : string) : Event :=
  Create (Request.body req !! "name") (Request.body req !! "email")
         (Request.body req !! "password")
         (Js.or_else (Request.body req !! "bio") "") avatar.

Definition createStep `{Collaborators} (req : Request.t) (w : World)
           (avatar : string) (l : list Event) : Response * World :=
  match writeOutcome (l ++ [createCall req avatar]) with
  | None => createdOutcome req w avatar l
  | Some e => (Next e, mkWorld (users w) (l ++ [createCall req avatar]) (clock w))
  end.

(** The outcome of a login that succeeds for the stored user [u]. *)
Definition loggedIn `{Collaborators} (u : Stored.t) : Response :=
  ApiResponse.success 200 "Login successful"
    [("_id", JId (Stored._id u));
     ("name", JStr (Stored.name u));
     ("email", JStr (Stored.email u));
     ("bio", JStr (Stored.bio u));
     ("avatar", JStr (Stored.avatar u));
     ("token", JStr (generateToken (Stored._id u)))].

(** Identifiers and emails are unique in the collection. *)
Definition uniqueUsers (l : list Stored.t) : Prop :=
  NoDup (Stored._id <$> l) /\ NoDup (Stored.email <$> l).

(** The number of occurrences of a character in a string. *)
Fixpoint occurrences (c : ascii) (s : string) : nat :=
  match s with
  | EmptyString => 0
  | String c' rest =>
      (if Ascii.eqb c' c then 1 else 0) + occurrences c rest
  end.

(** The [save] calls of a log. *)
Fixpoint saveCalls (l : list Event) : list Doc.t :=
  match l with
  | [] => []
  | Save d :: l' => d :: saveCalls l'
  | _ :: l' => saveCalls l'
  end.

(** ** Running the model *)

Example oldPublicId_stored_path :
  oldPublicId "uploads/avatars/abc123.png" = "avatars/abc123".
Proof. reflexivity. Qed.

Example oldPublicId_one_segment : oldPublicId "photo.png" = "photo".
Proof. reflexivity. Qed.

Example oldPublicId_dotted_folder : oldPublicId "media/v1.2/photo.png" = "v1".
Proof. reflexivity. Qed.

Example specPublicId_stored_path :
  specPublicId "uploads/avatars/abc123.png" = "avatars/abc123".
Proof. reflexivity. Qed.

Example specPublicId_dotted_folder :
  specPublicId "media/v1.2/photo.png" = "v1.2/photo".
Proof. reflexivity. Qed.

Example publicId_dotted_name :
  oldPublicId "uploads/avatars/john.doe.png" = "avatars/john"
  /\ specPublicId "uploads/avatars/john.doe.png" = "avatars/john.doe".
Proof. split; reflexivity. Qed.

Example startsWith_http :
  Js.startsWith "http" "https://media.example/a.png" = true
  /\ Js.startsWith "http" "uploads/http.png" = false
  /\ Js.startsWith "http" "ht" = false.
Proof. repeat split. Qed.

Example split_empty : Js.split "/" "" = [""].
Proof. reflexivity. Qed.

Example split_edges : Js.split "/" "/a//b/" = [""; "a"; ""; "b"; ""].
Proof. reflexivity. Qed.

Example register_creates_user :
  let req := Request.mk {[ "name" := "Carol"; "email" := "carol@example.org";
                           "password" := "pw" ]} (Some demoFile) 0%N in
  let run := @register (demoCollaborators true true) req demoWorld in
  fst run
  = ApiResponse.success 201 "User registered successfully"
      [("_id", JId 3%N); ("name", JStr "Carol");
       ("email", JStr "carol@example.org"); ("bio", JStr "");
       ("avatar", JStr "https://media.example/avatars/new.png");
       ("token", JStr "signed-token")]
  /\ users (snd run)
     = [alice; bob;
        Stored.mk 3%N "Carol" "carol@example.org" "hash:pw" ""
                  "https://media.example/avatars/new.png" 1000%N].
Proof. split; vm_compute; reflexivity. Qed.

Example login_succeeds :
  let req := Request.mk {[ "email" := "bob@example.org";
                           "password" := "hunter2" ]} None 0%N in
  @login (demoCollaborators true true) req demoWorld
  = (ApiResponse.success 200 "Login successful"
       [("_id", JId 2%N); ("name", JStr "Bob");
        ("email", JStr "bob@example.org"); ("bio", JStr "");
        ("avatar", JStr "https://media.example/avatars/bob.png");
        ("token", JStr "signed-token")], demoWorld).
Proof. vm_compute. reflexivity. Qed.

Example updateProfile_replaces_avatar :
  let req := Request.mk {[ "name" := "Al"; "bio" := "" ]} (Some demoFile) 1%N in
  let run := @updateProfile (demoCollaborators true false) req demoWorld in
  User.lookup 1%N (users (snd run))
  = Some (Stored.mk 1%N "Al" "alice@example.org" "hash:secret" ""
                    "https://media.example/avatars/new.png" 100%N)
  /\ mediaCalls (log (snd run))
     = [CallDelete "avatars/old"; CallUpload (File.buffer demoFile) "avatars"].
Proof. split; vm_compute; reflexivity. Qed.

Example updateProfile_save_rejected :
  let req := Request.mk {[ "name" := "Bobby" ]} (Some demoFile) 2%N in
  let run := @updateProfile rejectingCollaborators req demoWorld in
  fst run = Next (MongoError "ValidationError")
  /\ users (snd run) = users demoWorld
  /\ mediaCalls (log (snd run)) = [CallUpload (File.buffer demoFile) "avatars"]
  /\ length (saveCalls (log (snd run))) = 1.
Proof. repeat split; vm_compute; reflexivity. Qed.

Example register_create_rejected :
  let req := Request.mk {[ "name" := "Carol"; "email" := "carol@example.org";
                           "password" := "pw" ]} (Some demoFile) 0%N in
  let run := @register rejectingCollaborators req demoWorld in
  fst run = Next (MongoError "ValidationError")
  /\ users (snd run) = users demoWorld
  /\ log (snd run)
     = [Upload (File.buffer demoFile) "avatars"
               (inr "https://media.example/avatars/new.png");
        Create (Some "Carol") (Some "carol@example.org") (Some "pw") ""
               "https://media.example/avatars/new.png"].
Proof. repeat split; vm_compute; reflexivity. Qed.

(** ** Helper lemmas *)

(** Closes a goal saying that a payload built by a controller has no
    such property. *)
Ltac no_such_key :=
  cbn [list_to_map foldr fst snd];
  repeat (rewrite lookup_insert_ne by discriminate);
  apply lookup_empty.

Lemma truthy_false_missing (v : option string) :
  Js.truthy v = false <-> missing v.
Proof.
  unfold missing. destruct v as [s|]; simpl.
  - destruct (String.eqb_spec s ""); subst; simpl; split; intros Hm; auto.
    + discriminate.
    + destruct Hm as [Hm|Hm]; [discriminate | congruence].
  - split; auto.
Qed.

Lemma truthy_true_present (v : option string) :
  Js.truthy v = true <-> present v.
Proof.
  unfold present. destruct v as [s|]; simpl.
  - destruct (String.eqb_spec s ""); subst; simpl; split.
    + discriminate.
    + intros (s' & Hs & Hne). congruence.
    + eauto.
    + auto.
  - split; [discriminate | intros (s & Hs & _); discriminate].
Qed.

Lemma drop_log_1 (l : list Event) (a : Event) :
  drop (length l) (l ++ [a]) = [a].
Proof. apply drop_app_length. Qed.

Lemma drop_log_0 (l : list Event) : drop (length l) l = [].
Proof. apply drop_all. Qed.

(** Saving over a record that exists makes the saved record the one
    found under its identifier. *)
Lemma lookup_replace (id : Id) (r r' : Stored.t) (l : list Stored.t) :
  User.lookup id l = Some r ->
  User.hasId id r' = true ->
  User.lookup id ((fun x => if User.hasId id x then r' else x) <$> l) = Some r'.
Proof.
  intros Hl Hr'. induction l as [|x l IH]; simpl in *; [discriminate|].
  destruct (User.hasId id x) eqn:Hx.
  - rewrite Hr'. reflexivity.
  - rewrite Hx. auto.
Qed.

Lemma lookup_hasId (id : Id) (r : Stored.t) (l : list Stored.t) :
  User.lookup id l = Some r -> Stored._id r = id.
Proof.
  unfold User.lookup. intros Hf. apply find_some in Hf as [_ Hid].
  unfold User.hasId in Hid. apply N.eqb_eq in Hid. exact Hid.
Qed.

Lemma save_phase `{Collaborators} (req : Request.t) (w : World) (u : Stored.t)
      (avatar : string) (l : list Event) :
  User.lookup (Stored._id u) (users w) = Some u ->
  handler
    (let user :=
       Doc.set_avatar avatar
         (Doc.set_bio (match Request.body req !! "bio" with
                       | Some bio => bio
                       | None => Stored.bio u
                       end)
            (Doc.set_name
               (Js.or_else (Request.body req !! "name") (Stored.name u))
               (User.toDoc false u))) in
     let user :=
       match Request.body req !! "password" with
       | Some password =>
           if Js.truthy (Some password)
           then Doc.set_password password user
           else user
       | None => user
       end in
     let* updatedUser := User.save user in
     ret (ApiResponse.success 200 "Profile updated successfully"
            [("_id", JId (Doc._id updatedUser));
             ("name", JStr (Doc.name updatedUser));
             ("email", JStr (Doc.email updatedUser));
             ("bio", JStr (Doc.bio updatedUser));
             ("avatar", JStr (Doc.avatar updatedUser))]))
    (mkWorld (users w) l (clock w))
  = saveStep req w u avatar l.
Proof.
  intros Hu.
  unfold saveStep, savedOutcome, docToSave, recordSaved, handler, User.save.
  unfold bind, emit, ret.
  destruct (Request.body req !! "password") as [p|]; simpl;
    [destruct (p =? ""); simpl|]; rewrite Hu; simpl;
    destruct (Request.body req !! "bio"); simpl;
    destruct (writeOutcome _); reflexivity.
Qed.

Lemma updateProfile_found `{Collaborators} (req : Request.t) (w : World)
      (u : Stored.t) :
  User.lookup (Request.user req) (users w) = Some u ->
  updateProfile req w =
  match Request.file req with
  | None => saveStep req w u (Stored.avatar u) (log w)
  | Some file =>
      let l := logAfterCleanup (Stored.avatar u) (log w) in
      match uploadOutcome l (File.buffer file) "avatars" with
      | inl e =>
          (Next e,
           mkWorld (users w) (l ++ [Upload (File.buffer file) "avatars" (inl e)])
                   (clock w))
      | inr url =>
          saveStep req w u url
            (l ++ [Upload (File.buffer file) "avatars" (inr url)])
      end
  end.
Proof.
  intros Hu. pose proof (lookup_hasId _ _ _ Hu) as Hid.
  assert (Hu' : User.lookup (Stored._id u) (users w) = Some u)
    by (rewrite Hid; exact Hu).
  unfold updateProfile, handler, bind at 1, User.findById. rewrite Hu. simpl.
  destruct (Request.file req) as [file|].
  - unfold logAfterCleanup.
    unfold bind, try_catch, deleteFromCloudinary, uploadToCloudinary, ret.
    destruct (negb (Stored.avatar u =? "")
              && negb (Js.startsWith "http" (Stored.avatar u)));
      [destruct (deleteOutcome (log w) (oldPublicId (Stored.avatar u)))|];
      simpl;
      (destruct (uploadOutcome _ (File.buffer file) "avatars") as [e'|url];
       simpl; [reflexivity|]);
      exact (save_phase req w u url _ Hu').
  - destruct w as [us lg ck]. exact (save_phase req _ u (Stored.avatar u) lg Hu').
Qed.

(** ** register *)

(** C6. A register call in which name, email or password is missing is
    answered 400 "Please provide all required fields"; the world is left
    as it was: no user record is created and no call is made to the
    media host or to the repository. *)
Theorem register_missing_field `{Collaborators} (req : Request.t) (w : World) :
  missing (Request.body req !! "name")
  \/ missing (Request.body req !! "email")
  \/ missing (Request.body req !! "password") ->
  fst (register req w)
    = ApiResponse.error 400 "Please provide all required fields"
  /\ users (snd (register req w)) = users w
  /\ calls (register req) w = [].
Proof.
  intros Hm.
  assert (Hguard : negb (Js.truthy (Request.body req !! "name"))
                   || negb (Js.truthy (Request.body req !! "email"))
                   || negb (Js.truthy (Request.body req !! "password")) = true).
  { rewrite <- !truthy_false_missing in Hm.
    destruct Hm as [Hm | [Hm | Hm]]; rewrite Hm; simpl;
      rewrite ?orb_true_r; reflexivity. }
  unfold calls, register, handler. rewrite Hguard. unfold ret. simpl.
  rewrite drop_log_0. auto.
Qed.

Lemma register_missing_field_witness :
  let req := Request.mk {[ "name" := "Carol"; "email" := "carol@example.org" ]}
                        (Some demoFile) 0%N in
  fst (@register (demoCollaborators true true) req demoWorld)
    = ApiResponse.error 400 "Please provide all required fields"
  /\ users (snd (@register (demoCollaborators true true) req demoWorld))
     = users demoWorld
  /\ calls (@register (demoCollaborators true true) req) demoWorld = [].
Proof.
  intros req.
  apply (@register_missing_field (demoCollaborators true true) req demoWorld).
  right. right. left. vm_compute. reflexivity.
Defined.

Lemma byEmail_some (e : string) (u : Stored.t) (l : list Stored.t) :
  In u l -> Stored.email u = e ->
  exists u', User.byEmail (Some e) l = Some u'.
Proof.
  intros Hin He. unfold User.byEmail.
  destruct (List.find (User.hasEmail (Some e)) l) as [u'|] eqn:Hf; [eauto|].
  apply (find_none _ _ Hf) in Hin. simpl in Hin.
  rewrite He, String.eqb_refl in Hin. discriminate.
Qed.

(** C7, as the code has it. A register call with name, email and
    password all present whose email belongs to a stored user is
    answered 400 "User already exists"; no record is created and no call
    is made to the media host, the duplicate check coming before the
    upload and the creation. *)
Theorem register_duplicate_email `{Collaborators} (req : Request.t) (w : World)
        (u : Stored.t) :
  present (Request.body req !! "name") ->
  present (Request.body req !! "email") ->
  present (Request.body req !! "password") ->
  In u (users w) ->
  Request.body req !! "email" = Some (Stored.email u) ->
  fst (register req w) = ApiResponse.error 400 "User already exists"
  /\ users (snd (register req w)) = users w
  /\ calls (register req) w = [].
Proof.
  intros Hn He Hp Hin Hu.
  apply truthy_true_present in Hn, He, Hp.
  destruct (byEmail_some (Stored.email u) u (users w) Hin eq_refl) as [u' Hf].
  unfold calls, register, handler, bind, User.findOne.
  rewrite Hn, He, Hp. simpl. rewrite Hu, Hf. simpl.
  rewrite drop_log_0. auto.
Qed.

Lemma register_duplicate_email_witness :
  let req := Request.mk {[ "name" := "Eve"; "email" := "alice@example.org";
                           "password" := "pw" ]} (Some demoFile) 0%N in
  fst (@register (demoCollaborators true true) req demoWorld)
    = ApiResponse.error 400 "User already exists"
  /\ users (snd (@register (demoCollaborators true true) req demoWorld))
     = users demoWorld
  /\ calls (@register (demoCollaborators true true) req) demoWorld = [].
Proof.
  intros req.
  apply (@register_duplicate_email (demoCollaborators true true) req demoWorld
                                   alice).
  - exists "Eve". split; [vm_compute; reflexivity | discriminate].
  - exists "alice@example.org". split; [vm_compute; reflexivity | discriminate].
  - exists "pw". split; [vm_compute; reflexivity | discriminate].
  - simpl. left. reflexivity.
  - vm_compute. reflexivity.
Defined.

(** C7 as stated fails: the email of the request belongs to a stored
    user, the name is missing, and the answer is the validation error,
    not the conflict error. *)
Lemma register_duplicate_email_counterexample :
  let req := Request.mk {[ "email" := "alice@example.org"; "password" := "pw" ]}
                        None 0%N in
  In alice (users demoWorld)
  /\ Request.body req !! "email" = Some (Stored.email alice)
  /\ fst (@register (demoCollaborators true true) req demoWorld)
     = ApiResponse.error 400 "Please provide all required fields"
  /\ fst (@register (demoCollaborators true true) req demoWorld)
     <> ApiResponse.error 400 "User already exists".
Proof.
  intros req. split; [simpl; auto|]. split; [vm_compute; reflexivity|].
  split; [vm_compute; reflexivity|]. vm_compute. discriminate.
Qed.

(** ** login *)

(** C8. A login call with email and password present, for which no
    stored user carries the email or the password does not verify
    against the stored hash of the user found, is answered 401 with the
    message "Invalid email or password" in both cases, and leaves the
    world as it was. *)
Theorem login_invalid_credentials `{Collaborators} (req : Request.t) (w : World)
        (pw : string) :
  present (Request.body req !! "email") ->
  Request.body req !! "password" = Some pw ->
  pw <> "" ->
  User.byEmail (Request.body req !! "email") (users w) = None
  \/ (exists u, User.byEmail (Request.body req !! "email") (users w) = Some u
                /\ comparePassword pw (Stored.password u) = false) ->
  login req w = (ApiResponse.error 401 "Invalid email or password", w).
Proof.
  intros He Hpw Hne Hcase.
  apply truthy_true_present in He.
  assert (Hp : Js.truthy (Request.body req !! "password") = true).
  { apply truthy_true_present. exists pw. auto. }
  unfold login, handler, bind, User.findOne. rewrite He, Hp. simpl.
  destruct Hcase as [Hnone | (u & Hsome & Hcmp)].
  - rewrite Hnone. reflexivity.
  - rewrite Hsome. simpl. unfold User.matchPassword. simpl.
    rewrite Hpw. unfold ret. rewrite Hcmp. reflexivity.
Qed.

Lemma login_invalid_credentials_witness :
  let unknown := Request.mk {[ "email" := "nobody@example.org";
                               "password" := "secret" ]} None 0%N in
  let wrong := Request.mk {[ "email" := "alice@example.org";
                             "password" := "guess" ]} None 0%N in
  @login (demoCollaborators true true) unknown demoWorld
    = (ApiResponse.error 401 "Invalid email or password", demoWorld)
  /\ @login (demoCollaborators true true) wrong demoWorld
     = (ApiResponse.error 401 "Invalid email or password", demoWorld).
Proof.
  intros unknown wrong. split.
  - apply (@login_invalid_credentials (demoCollaborators true true) unknown
                                      demoWorld "secret").
    + exists "nobody@example.org". split; [vm_compute; reflexivity | discriminate].
    + vm_compute. reflexivity.
    + discriminate.
    + left. vm_compute. reflexivity.
  - apply (@login_invalid_credentials (demoCollaborators true true) wrong
                                      demoWorld "guess").
    + exists "alice@example.org". split; [vm_compute; reflexivity | discriminate].
    + vm_compute. reflexivity.
    + discriminate.
    + right. exists alice. split; vm_compute; reflexivity.
Defined.

(** ** getMe and updateProfile *)

Lemma updateProfile_not_found `{Collaborators} (req : Request.t) (w : World) :
  User.lookup (Request.user req) (users w) = None ->
  updateProfile req w = (ApiResponse.error 404 "User not found", w).
Proof.
  intros Hu. unfold updateProfile, handler, bind, User.findById.
  rewrite Hu. reflexivity.
Qed.

Lemma getMe_not_found `{Collaborators} (req : Request.t) (w : World) :
  User.lookup (Request.user req) (users w) = None ->
  getMe req w
  = (Next (TypeError "Cannot read properties of null (reading '_id')"), w).
Proof.
  intros Hu. unfold getMe, handler, bind, User.findById.
  rewrite Hu. reflexivity.
Qed.

Lemma getMe_found `{Collaborators} (req : Request.t) (w : World) (u : Stored.t) :
  User.lookup (Request.user req) (users w) = Some u ->
  getMe req w
  = (ApiResponse.success 200 "User profile retrieved"
       [("_id", JId (Stored._id u));
        ("name", JStr (Stored.name u));
        ("email", JStr (Stored.email u));
        ("bio", JStr (Stored.bio u));
        ("avatar", JStr (Stored.avatar u));
        ("createdAt", JDate (Stored.createdAt u))], w).
Proof.
  intros Hu. unfold getMe, handler, bind, User.findById.
  rewrite Hu. reflexivity.
Qed.

Lemma saveStep_log `{Collaborators} (req : Request.t) (w : World)
      (u : Stored.t) (avatar : string) (l : list Event) :
  log (snd (saveStep req w u avatar l)) = l ++ [Save (docToSave req u avatar)].
Proof. unfold saveStep. destruct (writeOutcome _); reflexivity. Qed.

Lemma saveStep_answer `{Collaborators} (req : Request.t) (w : World)
      (u : Stored.t) (avatar : string) (l : list Event)
      (st : N) (ok : bool) (msg : string) (data : option (gmap string JsVal)) :
  fst (saveStep req w u avatar l) = Json st ok msg data ->
  saveStep req w u avatar l = savedOutcome req w u avatar l
  /\ writeOutcome (l ++ [Save (docToSave req u avatar)]) = None.
Proof.
  unfold saveStep. destruct (writeOutcome _); [discriminate | auto].
Qed.

Lemma saveStep_accepted `{Collaborators} (req : Request.t) (w : World)
      (u : Stored.t) (avatar : string) (l : list Event) :
  writeOutcome (l ++ [Save (docToSave req u avatar)]) = None ->
  saveStep req w u avatar l = savedOutcome req w u avatar l.
Proof. unfold saveStep. intros ->. reflexivity. Qed.

Lemma saveStep_rejected `{Collaborators} (req : Request.t) (w : World)
      (u : Stored.t) (avatar : string) (l : list Event) (e : Exn) :
  writeOutcome (l ++ [Save (docToSave req u avatar)]) = Some e ->
  saveStep req w u avatar l
  = (Next e, mkWorld (users w) (l ++ [Save (docToSave req u avatar)]) (clock w)).
Proof. unfold saveStep. intros ->. reflexivity. Qed.

(** The calls of an update on a stored user, case by case. *)
Lemma updateProfile_calls `{Collaborators} (req : Request.t) (w : World)
      (u : Stored.t) :
  User.lookup (Request.user req) (users w) = Some u ->
  calls (updateProfile req) w =
  match Request.file req with
  | None => [Save (docToSave req u (Stored.avatar u))]
  | Some file =>
      let l := logAfterCleanup (Stored.avatar u) (log w) in
      drop (length (log w)) l ++
      match uploadOutcome l (File.buffer file) "avatars" with
      | inl e => [Upload (File.buffer file) "avatars" (inl e)]
      | inr url => [Upload (File.buffer file) "avatars" (inr url);
                    Save (docToSave req u url)]
      end
  end.
Proof.
  intros Hu. unfold calls. rewrite (updateProfile_found req w u Hu).
  destruct (Request.file req) as [file|]; simpl.
  - assert (Hl : exists k, logAfterCleanup (Stored.avatar u) (log w)
                           = log w ++ k).
    { unfold logAfterCleanup.
      destruct (negb (Stored.avatar u =? "")
                && negb (Js.startsWith "http" (Stored.avatar u)));
        [eauto | exists []; symmetry; apply app_nil_r]. }
    destruct Hl as [k Hk]. rewrite Hk.
    destruct (uploadOutcome (log w ++ k) (File.buffer file) "avatars");
      rewrite ?saveStep_log; simpl;
      rewrite <- !app_assoc, !drop_app_length; reflexivity.
  - rewrite saveStep_log. apply drop_log_1.
Qed.

Lemma cleanup_calls `{Collaborators} (avatar : string) (l : list Event) :
  drop (length l) (logAfterCleanup avatar l) =
  if negb (String.eqb avatar "") && negb (Js.startsWith "http" avatar)
  then [Delete (oldPublicId avatar) (deleteOutcome l (oldPublicId avatar))]
  else [].
Proof.
  unfold logAfterCleanup.
  destruct (negb (avatar =? "") && negb (Js.startsWith "http" avatar)).
  - apply drop_log_1.
  - apply drop_log_0.
Qed.

(** C10. A getMe call whose identifier matches no stored user does not
    answer at all: reading [_id] of the null record throws a TypeError,
    which is passed to [next]. updateProfile answers 404 "User not
    found" in the same situation. Neither changes the world. *)
Theorem getMe_unknown_user `{Collaborators} (req : Request.t) (w : World) :
  User.lookup (Request.user req) (users w) = None ->
  getMe req w
    = (Next (TypeError "Cannot read properties of null (reading '_id')"), w)
  /\ (forall st ok msg data, fst (getMe req w) <> Json st ok msg data)
  /\ updateProfile req w = (ApiResponse.error 404 "User not found", w).
Proof.
  intros Hu. pose proof (getMe_not_found req w Hu) as Hg.
  split; [exact Hg|]. split.
  - intros st ok msg data. rewrite Hg. discriminate.
  - apply updateProfile_not_found. exact Hu.
Qed.

Lemma getMe_unknown_user_witness :
  let req := Request.mk ∅ None 7%N in
  @getMe (demoCollaborators true true) req demoWorld
    = (Next (TypeError "Cannot read properties of null (reading '_id')"),
       demoWorld)
  /\ (forall st ok msg data,
         fst (@getMe (demoCollaborators true true) req demoWorld)
         <> Json st ok msg data)
  /\ @updateProfile (demoCollaborators true true) req demoWorld
     = (ApiResponse.error 404 "User not found", demoWorld).
Proof.
  intros req.
  apply (@getMe_unknown_user (demoCollaborators true true) req demoWorld).
  vm_compute. reflexivity.
Defined.

(** C9. The payload of a successful answer of getMe or of updateProfile
    has no [password] property, whatever the request and the world:
    also when the update has just assigned a password to the document. *)
Theorem views_exclude_password `{Collaborators} (req : Request.t) (w : World)
        (st : N) (ok : bool) (msg : string) (data : gmap string JsVal) :
  fst (getMe req w) = Json st ok msg (Some data)
  \/ fst (updateProfile req w) = Json st ok msg (Some data) ->
  data !! "password" = None.
Proof.
  destruct (User.lookup (Request.user req) (users w)) as [u|] eqn:Hu.
  - rewrite (getMe_found req w u Hu), (updateProfile_found req w u Hu).
    unfold ApiResponse.success. intros [Hr | Hr].
    + cbn [fst] in Hr. injection Hr as _ _ _ <-. no_such_key.
    + assert (Hsaved : forall avatar l,
                 fst (saveStep req w u avatar l) = Json st ok msg (Some data) ->
                 data !! "password" = None).
      { intros avatar l Hs.
        destruct (saveStep_answer _ _ _ _ _ _ _ _ _ Hs) as [Heq _].
        rewrite Heq in Hs. unfold savedOutcome, ApiResponse.success in Hs.
        cbn [fst] in Hs. injection Hs as _ _ _ <-. no_such_key. }
      destruct (Request.file req) as [file|]; [|exact (Hsaved _ _ Hr)].
      cbv zeta in Hr.
      destruct (uploadOutcome _ (File.buffer file) "avatars");
        [discriminate | exact (Hsaved _ _ Hr)].
  - rewrite (getMe_not_found req w Hu), (updateProfile_not_found req w Hu).
    intros [Hr | Hr]; discriminate.
Qed.

Lemma views_exclude_password_witness :
  let data : gmap string JsVal :=
    list_to_map [("_id", JId 1%N); ("name", JStr "Alice");
                 ("email", JStr "alice@example.org"); ("bio", JStr "hello");
                 ("avatar", JStr "uploads/avatars/old.png");
                 ("createdAt", JDate 100%N)] in
  fst (@getMe (demoCollaborators true true) (Request.mk ∅ None 1%N) demoWorld)
    = Json 200 true "User profile retrieved" (Some data)
  /\ data !! "password" = None.
Proof.
  intros data.
  assert (Hr : fst (@getMe (demoCollaborators true true)
                           (Request.mk ∅ None 1%N) demoWorld)
               = Json 200 true "User profile retrieved" (Some data))
    by reflexivity.
  split; [exact Hr|].
  apply (@views_exclude_password (demoCollaborators true true)
           (Request.mk ∅ None 1%N) demoWorld 200%N true
           "User profile retrieved" data).
  left. exact Hr.
Defined.

(** C1. When a file is supplied and its upload fails, updateProfile
    passes the error of the upload to [next], the collection of users is
    left as it was (no change of name, bio, password or avatar is
    stored), and [save] is not called. *)
Theorem updateProfile_upload_failure `{Collaborators} (req : Request.t)
        (w : World) (file : File.t) (e : Exn) :
  Request.file req = Some file ->
  In (Upload (File.buffer file) "avatars" (inl e)) (calls (updateProfile req) w) ->
  fst (updateProfile req w) = Next e
  /\ users (snd (updateProfile req w)) = users w
  /\ forall d, ~ In (Save d) (calls (updateProfile req) w).
Proof.
  intros Hfile Hin.
  destruct (User.lookup (Request.user req) (users w)) as [u|] eqn:Hu.
  - rewrite (updateProfile_calls req w u Hu) in *.
    rewrite (updateProfile_found req w u Hu).
    rewrite Hfile in *. cbv zeta in *. rewrite cleanup_calls in *.
    destruct (uploadOutcome _ (File.buffer file) "avatars") as [e'|url].
    + assert (e' = e) as ->.
      { apply in_app_or in Hin as [Hin | Hin].
        - destruct (negb _ && negb _); simpl in Hin;
            intuition discriminate.
        - simpl in Hin. destruct Hin as [Hin | []]. congruence. }
      repeat split; [reflexivity..|].
      intros d Hd. apply in_app_or in Hd as [Hd | Hd].
      * destruct (negb _ && negb _); simpl in Hd; intuition discriminate.
      * simpl in Hd. intuition discriminate.
    + exfalso. apply in_app_or in Hin as [Hin | Hin].
      * destruct (negb _ && negb _); simpl in Hin; intuition discriminate.
      * simpl in Hin. intuition discriminate.
  - unfold calls in Hin. rewrite (updateProfile_not_found req w Hu) in Hin.
    simpl in Hin. rewrite drop_log_0 in Hin. destruct Hin.
Qed.

Lemma updateProfile_upload_failure_witness :
  let req := Request.mk {[ "name" := "Al"; "bio" := ""; "password" := "new" ]}
                        (Some demoFile) 1%N in
  fst (@updateProfile (demoCollaborators false true) req demoWorld)
    = Next (CloudinaryError "upload failed")
  /\ users (snd (@updateProfile (demoCollaborators false true) req demoWorld))
     = users demoWorld
  /\ forall d,
       ~ In (Save d)
            (calls (@updateProfile (demoCollaborators false true) req) demoWorld).
Proof.
  intros req.
  apply (@updateProfile_upload_failure (demoCollaborators false true) req
           demoWorld demoFile (CloudinaryError "upload failed")).
  - reflexivity.
  - vm_compute. right. left. reflexivity.
Defined.

(** C2. When a file is supplied and the user is stored: if the stored
    avatar is non-empty and does not start with "http", the media host
    gets exactly one delete call and then exactly one upload call into
    "avatars"; otherwise (empty avatar, or avatar starting with "http")
    it gets no delete call and exactly one upload call into "avatars". *)
Theorem updateProfile_media_calls `{Collaborators} (req : Request.t)
        (w : World) (file : File.t) (u : Stored.t) :
  Request.file req = Some file ->
  User.lookup (Request.user req) (users w) = Some u ->
  (Stored.avatar u <> "" /\ Js.startsWith "http" (Stored.avatar u) = false ->
   mediaCalls (calls (updateProfile req) w)
   = [CallDelete (oldPublicId (Stored.avatar u));
      CallUpload (File.buffer file) "avatars"])
  /\ (Stored.avatar u = "" \/ Js.startsWith "http" (Stored.avatar u) = true ->
      mediaCalls (calls (updateProfile req) w)
      = [CallUpload (File.buffer file) "avatars"]).
Proof.
  intros Hfile Hu.
  rewrite (updateProfile_calls req w u Hu), Hfile. cbv zeta.
  rewrite cleanup_calls. split.
  - intros [Hne Hhttp]. rewrite Hhttp.
    destruct (String.eqb_spec (Stored.avatar u) ""); [contradiction|]. simpl.
    destruct (uploadOutcome _ (File.buffer file) "avatars"); reflexivity.
  - intros Hcase.
    assert (Hg : negb (Stored.avatar u =? "")
                 && negb (Js.startsWith "http" (Stored.avatar u)) = false).
    { destruct Hcase as [Hempty | Hhttp].
      - rewrite Hempty. reflexivity.
      - rewrite Hhttp. apply andb_false_r. }
    rewrite Hg. simpl.
    destruct (uploadOutcome _ (File.buffer file) "avatars"); reflexivity.
Qed.

Lemma updateProfile_media_calls_witness :
  let req1 := Request.mk ∅ (Some demoFile) 1%N in
  let req2 := Request.mk ∅ (Some demoFile) 2%N in
  mediaCalls (calls (@updateProfile (demoCollaborators true false) req1)
                    demoWorld)
    = [CallDelete "avatars/old"; CallUpload (File.buffer demoFile) "avatars"]
  /\ mediaCalls (calls (@updateProfile (demoCollaborators true false) req2)
                       demoWorld)
     = [CallUpload (File.buffer demoFile) "avatars"].
Proof.
  intros req1 req2. split.
  - apply (@updateProfile_media_calls (demoCollaborators true false) req1
             demoWorld demoFile alice); [reflexivity | reflexivity |].
    split; [discriminate | reflexivity].
  - apply (@updateProfile_media_calls (demoCollaborators true false) req2
             demoWorld demoFile bob); [reflexivity | reflexivity |].
    right. reflexivity.
Defined.

Lemma lookup_saved `{Collaborators} (req : Request.t) (w : World) (u : Stored.t)
      (avatar : string) (l : list Event) :
  User.lookup (Request.user req) (users w) = Some u ->
  User.lookup (Request.user req) (users (snd (savedOutcome req w u avatar l)))
  = Some (recordSaved req u avatar).
Proof.
  intros Hu. pose proof (lookup_hasId _ _ _ Hu) as Hid.
  unfold savedOutcome. cbn [snd users]. rewrite Hid.
  apply (lookup_replace _ u); [exact Hu|].
  unfold User.hasId, recordSaved. cbn [Stored._id]. rewrite Hid.
  apply N.eqb_refl.
Qed.

(** In these statements the repository accepts the write of a call when
    [writeOutcome] answers [None] on the log the call leaves: that log
    ends with the [Save] or [Create] call whenever one was made. *)

Lemma saveStep_next `{Collaborators} (req : Request.t) (w : World)
      (u : Stored.t) (avatar : string) (l : list Event) (e : Exn) :
  fst (saveStep req w u avatar l) = Next e ->
  writeOutcome (l ++ [Save (docToSave req u avatar)]) = Some e.
Proof.
  unfold saveStep. destruct (writeOutcome _) as [e'|]; [|discriminate].
  intros Hr. injection Hr as ->. reflexivity.
Qed.

Lemma savedOutcome_avatar `{Collaborators} (req : Request.t) (w : World)
      (u : Stored.t) (avatar : string) (l : list Event) :
  User.lookup (Request.user req) (users w) = Some u ->
  (exists data,
      fst (savedOutcome req w u avatar l)
      = Json 200 true "Profile updated successfully" (Some data)
      /\ data !! "avatar" = Some (JStr avatar))
  /\ (exists u',
         User.lookup (Request.user req)
                     (users (snd (savedOutcome req w u avatar l))) = Some u'
         /\ Stored.avatar u' = avatar).
Proof.
  intros Hu. split.
  - eexists. split; [reflexivity|].
    cbn [list_to_map foldr fst snd].
    repeat (rewrite lookup_insert_ne by discriminate).
    apply lookup_insert_eq.
  - exists (recordSaved req u avatar). split; [|reflexivity].
    apply lookup_saved. exact Hu.
Qed.

(** C3. When the delete call of an update fails, the error is swallowed
    and the upload of the new file is still attempted. With the delete
    as the only fault, that is when the upload succeeds and the
    repository accepts the save, the update succeeds: it answers 200
    with the new avatar URL and the stored record carries that URL. And
    whenever the update fails, the error it passes to [next] is that of
    the upload or that of the save: the update never fails because the
    delete failed. *)
Theorem updateProfile_delete_failure_swallowed `{Collaborators}
        (req : Request.t) (w : World) (publicId : string) (e : Exn) :
  In (Delete publicId (Some e)) (calls (updateProfile req) w) ->
  exists file outcome,
    Request.file req = Some file
    /\ In (Upload (File.buffer file) "avatars" outcome)
          (calls (updateProfile req) w)
    /\ (forall url,
           outcome = inr url ->
           writeOutcome (log (snd (updateProfile req w))) = None ->
           (exists data,
               fst (updateProfile req w)
               = Json 200 true "Profile updated successfully" (Some data)
               /\ data !! "avatar" = Some (JStr url))
           /\ (exists u',
                  User.lookup (Request.user req)
                              (users (snd (updateProfile req w))) = Some u'
                  /\ Stored.avatar u' = url))
    /\ (forall e',
           fst (updateProfile req w) = Next e' ->
           outcome = inl e'
           \/ writeOutcome (log (snd (updateProfile req w))) = Some e').
Proof.
  intros Hin.
  destruct (User.lookup (Request.user req) (users w)) as [u|] eqn:Hu.
  - rewrite (updateProfile_calls req w u Hu) in *.
    rewrite (updateProfile_found req w u Hu).
    destruct (Request.file req) as [file|].
    + cbv zeta in *. exists file.
      destruct (uploadOutcome _ (File.buffer file) "avatars") as [e0|url0] eqn:Hup.
      * exists (inl e0). split; [reflexivity|]. split.
        { apply in_or_app. right. left. reflexivity. }
        split; [intros url Ho; discriminate|].
        intros e' He'. left. cbn [fst] in He'. congruence.
      * exists (inr url0). split; [reflexivity|]. split.
        { apply in_or_app. right. left. reflexivity. }
        rewrite saveStep_log. split.
        -- intros url Ho Hw. injection Ho as <-.
           rewrite (saveStep_accepted req w u _ _ Hw).
           apply savedOutcome_avatar. exact Hu.
        -- intros e' He'. right. apply (saveStep_next req w u). exact He'.
    + simpl in Hin. intuition discriminate.
  - unfold calls in Hin. rewrite (updateProfile_not_found req w Hu) in Hin.
    simpl in Hin. rewrite drop_log_0 in Hin. destruct Hin.
Qed.

Lemma updateProfile_delete_failure_swallowed_witness :
  let req := Request.mk ∅ (Some demoFile) 1%N in
  exists data,
    fst (@updateProfile (demoCollaborators true false) req demoWorld)
    = Json 200 true "Profile updated successfully" (Some data)
    /\ data !! "avatar" = Some (JStr "https://media.example/avatars/new.png").
Proof.
  intros req.
  destruct (@updateProfile_delete_failure_swallowed
              (demoCollaborators true false) req demoWorld "avatars/old"
              (CloudinaryError "delete failed"))
    as (file & outcome & Hfile & Hin & Hok & _).
  - vm_compute. left. reflexivity.
  - destruct outcome as [e'|url].
    + exfalso. vm_compute in Hin.
      destruct Hin as [Hin | [Hin | [Hin | []]]]; discriminate.
    + destruct (Hok url eq_refl eq_refl) as [(data & Hresp & Hdata) _].
      exists data. split; [exact Hresp|].
      vm_compute in Hin.
      destruct Hin as [Hin | [Hin | [Hin | []]]]; try discriminate.
      injection Hin as _ <-. exact Hdata.
Defined.



(** ** The identifier of the avatar that is deleted *)

Lemma split_nonempty (sep : ascii) (s : string) : Js.split sep s <> [].
Proof.
  destruct s as [|c rest]; simpl; [discriminate|].
  destruct (Ascii.eqb c sep); [discriminate|].
  destruct (Js.split sep rest); discriminate.
Qed.

(** The first segment of a split on the dot is the text before the first
    dot. *)
Lemma first_split_dot (s : string) :
  exists rest,
    s = Js.first (Js.split "." s) +:+ rest
    /\ noDot (Js.first (Js.split "." s))
    /\ (rest = "" \/ exists rest', rest = String "." rest').
Proof.
  induction s as [|c s IH].
  - exists "". simpl. auto.
  - simpl. destruct (Ascii.eqb_spec c ".") as [-> | Hc].
    + exists (String "." s). simpl. eauto.
    + destruct IH as (rest & Heq & Hnd & Hrest).
      destruct (Js.split "." s) as [|seg segs] eqn:Hs.
      * exfalso. exact (split_nonempty _ _ Hs).
      * exists rest. simpl in *. split; [|auto].
        change (String c s = String c (seg +:+ rest)). congruence.
Qed.

(** C4, as the code has it. The identifier passed to the delete call of
    an update is the text, up to its first dot, of the last two
    segments of the stored avatar (split on "/", rejoined with "/"):
    the identifier has no dot, and what it leaves out is empty or starts
    with a dot. *)
Theorem updateProfile_deleted_identifier `{Collaborators} (req : Request.t)
        (w : World) (publicId : string) (outcome : option Exn) :
  In (Delete publicId outcome) (calls (updateProfile req) w) ->
  exists u rest,
    User.lookup (Request.user req) (users w) = Some u
    /\ Js.join "/" (Js.slice_last 2 (Js.split "/" (Stored.avatar u)))
       = publicId +:+ rest
    /\ noDot publicId
    /\ (rest = "" \/ exists rest', rest = String "." rest').
Proof.
  intros Hin.
  destruct (User.lookup (Request.user req) (users w)) as [u|] eqn:Hu.
  - exists u. rewrite (updateProfile_calls req w u Hu) in Hin.
    assert (Hid : publicId = oldPublicId (Stored.avatar u)).
    { destruct (Request.file req) as [file|].
      - cbv zeta in Hin. rewrite cleanup_calls in Hin.
        apply in_app_or in Hin as [Hin | Hin].
        + destruct (negb _ && negb _); simpl in Hin; [|contradiction].
          destruct Hin as [Hin | []]. congruence.
        + destruct (uploadOutcome _ (File.buffer file) "avatars");
            simpl in Hin; intuition discriminate.
      - simpl in Hin. intuition discriminate. }
    subst publicId. unfold oldPublicId.
    destruct (first_split_dot
                (Js.join "/" (Js.slice_last 2 (Js.split "/" (Stored.avatar u)))))
      as (rest & Heq & Hnd & Hrest).
    exists rest. auto.
  - unfold calls in Hin. rewrite (updateProfile_not_found req w Hu) in Hin.
    simpl in Hin. rewrite drop_log_0 in Hin. destruct Hin.
Qed.

Lemma updateProfile_deleted_identifier_witness :
  let req := Request.mk ∅ (Some demoFile) 1%N in
  exists u rest,
    User.lookup 1%N (users demoWorld) = Some u
    /\ Js.join "/" (Js.slice_last 2 (Js.split "/" (Stored.avatar u)))
       = "avatars/old" +:+ rest
    /\ noDot "avatars/old"
    /\ (rest = "" \/ exists rest', rest = String "." rest').
Proof.
  intros req.
  apply (@updateProfile_deleted_identifier (demoCollaborators true true) req
           demoWorld "avatars/old" None).
  vm_compute. left. reflexivity.
Defined.

(** C4 as stated fails: for the stored avatar "media/v1.2/photo.png" the
    trailing two segments with the extension stripped are "v1.2/photo",
    and the delete call is made with "v1". *)
Lemma updateProfile_deleted_identifier_counterexample :
  let carol := Stored.mk 3%N "Carol" "carol@example.org" "hash:pw" ""
                         "media/v1.2/photo.png" 300%N in
  let w := mkWorld [carol] [] 1000%N in
  let req := Request.mk ∅ (Some demoFile) 3%N in
  In (Delete "v1" None)
     (calls (@updateProfile (demoCollaborators true true) req) w)
  /\ specPublicId (Stored.avatar carol) = "v1.2/photo"
  /\ "v1" <> specPublicId (Stored.avatar carol).
Proof.
  intros carol w req. split; [vm_compute; left; reflexivity|].
  split; [reflexivity|]. vm_compute. discriminate.
Qed.

(** ** Further properties of register *)

Lemma byEmail_none_existsb (email : option string) (l : list Stored.t) :
  User.byEmail email l = None -> existsb (User.hasEmail email) l = false.
Proof.
  unfold User.byEmail. intros Hf.
  destruct (existsb (User.hasEmail email) l) eqn:Hex; [|reflexivity].
  apply existsb_exists in Hex as (x & Hin & Hx).
  rewrite (find_none _ _ Hf x Hin) in Hx. discriminate.
Qed.

Lemma register_invalid `{Collaborators} (req : Request.t) (w : World) :
  Js.truthy (Request.body req !! "name")
  && Js.truthy (Request.body req !! "email")
  && Js.truthy (Request.body req !! "password") = false ->
  register req w
  = (ApiResponse.error 400 "Please provide all required fields", w).
Proof.
  intros Hg. unfold register, handler.
  destruct (Js.truthy (Request.body req !! "name"));
    destruct (Js.truthy (Request.body req !! "email"));
    destruct (Js.truthy (Request.body req !! "password"));
    try discriminate; reflexivity.
Qed.

Lemma register_taken `{Collaborators} (req : Request.t) (w : World)
      (u : Stored.t) :
  Js.truthy (Request.body req !! "name")
  && Js.truthy (Request.body req !! "email")
  && Js.truthy (Request.body req !! "password") = true ->
  User.byEmail (Request.body req !! "email") (users w) = Some u ->
  register req w = (ApiResponse.error 400 "User already exists", w).
Proof.
  intros Hg Hu. apply andb_prop in Hg as [Hg Hp].
  apply andb_prop in Hg as [Hn He].
  unfold register, handler, bind, User.findOne.
  rewrite Hn, He, Hp. simpl. rewrite Hu. reflexivity.
Qed.

Lemma register_fresh `{Collaborators} (req : Request.t) (w : World) :
  Js.truthy (Request.body req !! "name")
  && Js.truthy (Request.body req !! "email")
  && Js.truthy (Request.body req !! "password") = true ->
  User.byEmail (Request.body req !! "email") (users w) = None ->
  register req w =
  match Request.file req with
  | None => createStep req w "" (log w)
  | Some file =>
      match uploadOutcome (log w) (File.buffer file) "avatars" with
      | inl e =>
          (Next e,
           mkWorld (users w)
                   (log w ++ [Upload (File.buffer file) "avatars" (inl e)])
                   (clock w))
      | inr url =>
          createStep req w url
            (log w ++ [Upload (File.buffer file) "avatars" (inr url)])
      end
  end.
Proof.
  intros Hg Hu. apply andb_prop in Hg as [Hg Hp].
  apply andb_prop in Hg as [Hn He].
  pose proof (byEmail_none_existsb _ _ Hu) as Hex.
  unfold register, handler, bind at 1, User.findOne.
  rewrite Hn, He, Hp. cbn [negb orb]. rewrite Hu. cbn [fmap option_fmap option_map].
  unfold createStep, createCall, createdOutcome, recordCreated, User.create.
  destruct (Request.body req !! "name") as [n|]; [|discriminate].
  destruct (Request.body req !! "email") as [e|]; [|discriminate].
  destruct (Request.body req !! "password") as [p|]; [|discriminate].
  simpl in Hn, He, Hp.
  apply negb_true_iff in Hn, He, Hp.
  destruct (Request.file req) as [file|].
  - unfold bind, uploadToCloudinary, emit, ret.
    destruct (uploadOutcome (log w) (File.buffer file) "avatars") as [e'|url];
      [reflexivity|].
    cbn [UploadResult.url users log clock]. rewrite Hn, He, Hp. cbn [orb].
    cbn [users]. rewrite Hex. destruct (writeOutcome _); reflexivity.
  - unfold bind, emit, ret. rewrite Hn, He, Hp. cbn [orb users log].
    rewrite Hex. destruct (writeOutcome _); reflexivity.
Qed.

Lemma createStep_log `{Collaborators} (req : Request.t) (w : World)
      (avatar : string) (l : list Event) :
  log (snd (createStep req w avatar l)) = l ++ [createCall req avatar].
Proof. unfold createStep. destruct (writeOutcome _); reflexivity. Qed.

Lemma createStep_accepted `{Collaborators} (req : Request.t) (w : World)
      (avatar : string) (l : list Event) :
  writeOutcome (l ++ [createCall req avatar]) = None ->
  createStep req w avatar l = createdOutcome req w avatar l.
Proof. unfold createStep. intros ->. reflexivity. Qed.

Lemma createStep_cases `{Collaborators} (req : Request.t) (w : World)
      (avatar : string) (l : list Event) :
  (writeOutcome (l ++ [createCall req avatar]) = None
   /\ createStep req w avatar l = createdOutcome req w avatar l)
  \/ (exists e,
         writeOutcome (l ++ [createCall req avatar]) = Some e
         /\ createStep req w avatar l
            = (Next e,
               mkWorld (users w) (l ++ [createCall req avatar]) (clock w))).
Proof. unfold createStep. destruct (writeOutcome _); eauto. Qed.

(** The runs of register, case by case. *)
Lemma register_cases `{Collaborators} (req : Request.t) (w : World) :
  register req w
  = (ApiResponse.error 400 "Please provide all required fields", w)
  \/ register req w = (ApiResponse.error 400 "User already exists", w)
  \/ (present (Request.body req !! "name")
      /\ present (Request.body req !! "email")
      /\ present (Request.body req !! "password")
      /\ User.byEmail (Request.body req !! "email") (users w) = None
      /\ register req w =
         match Request.file req with
         | None => createStep req w "" (log w)
         | Some file =>
             match uploadOutcome (log w) (File.buffer file) "avatars" with
             | inl e =>
                 (Next e,
                  mkWorld (users w)
                    (log w ++ [Upload (File.buffer file) "avatars" (inl e)])
                    (clock w))
             | inr url =>
                 createStep req w url
                   (log w ++ [Upload (File.buffer file) "avatars" (inr url)])
             end
         end).
Proof.
  destruct (Js.truthy (Request.body req !! "name")
            && Js.truthy (Request.body req !! "email")
            && Js.truthy (Request.body req !! "password")) eqn:Hg.
  - destruct (User.byEmail (Request.body req !! "email") (users w))
      as [u|] eqn:Hu.
    + right. left. exact (register_taken req w u Hg Hu).
    + right. right. pose proof (register_fresh req w Hg Hu) as Hrun.
      apply andb_prop in Hg as [Hg Hp]. apply andb_prop in Hg as [Hn He].
      rewrite truthy_true_present in Hn, He, Hp. auto.
  - left. exact (register_invalid req w Hg).
Qed.

Lemma freshId_above (l : list Stored.t) (x : Stored.t) :
  In x l -> (Stored._id x < User.freshId l)%N.
Proof.
  unfold User.freshId. induction l as [|y l IH]; simpl; [contradiction|].
  intros [-> | Hin]; apply N.lt_succ_r.
  - apply N.le_max_l.
  - specialize (IH Hin). apply N.lt_succ_r in IH.
    etransitivity; [exact IH | apply N.le_max_r].
Qed.

(** X1. When the upload of the avatar of a registration fails, the error
    of the upload is passed to [next], no user record is created and
    [User.create] is not called. *)
Theorem register_upload_failure `{Collaborators} (req : Request.t) (w : World)
        (buffer : Buffer) (e : Exn) :
  In (Upload buffer "avatars" (inl e)) (calls (register req) w) ->
  fst (register req w) = Next e
  /\ users (snd (register req w)) = users w
  /\ forall n em p b a, ~ In (Create n em p b a) (calls (register req) w).
Proof.
  unfold calls.
  destruct (register_cases req w) as [Hr | [Hr | (_ & _ & _ & _ & Hr)]];
    rewrite Hr; try (simpl; rewrite drop_log_0; contradiction).
  destruct (Request.file req) as [file|].
  - destruct (uploadOutcome (log w) (File.buffer file) "avatars") as [e'|url].
    + simpl. rewrite drop_log_1. intros [Hin | []]. injection Hin as _ <-.
      repeat split. intros n em p b a [Hc | []]. discriminate.
    + rewrite createStep_log, <- app_assoc, drop_app_length.
      unfold createCall. intros [Hin | [Hin | []]]; discriminate.
  - rewrite createStep_log, drop_log_1. unfold createCall.
    intros [Hin | []]. discriminate.
Qed.

Lemma register_upload_failure_witness :
  let req := Request.mk {[ "name" := "Carol"; "email" := "carol@example.org";
                           "password" := "pw" ]} (Some demoFile) 0%N in
  fst (@register (demoCollaborators false true) req demoWorld)
    = Next (CloudinaryError "upload failed")
  /\ users (snd (@register (demoCollaborators false true) req demoWorld))
     = users demoWorld
  /\ forall n em p b a,
       ~ In (Create n em p b a)
            (calls (@register (demoCollaborators false true) req) demoWorld).
Proof.
  intros req.
  apply (@register_upload_failure (demoCollaborators false true) req demoWorld
           (File.buffer demoFile) (CloudinaryError "upload failed")).
  vm_compute. left. reflexivity.
Defined.

(** X2. A registration with name, email and password present and an email
    no stored user carries, whose upload (if any) does not fail and
    whose creation the repository accepts, calls [User.create] with the
    supplied name, email and password, the supplied bio or the empty
    string, and the URL the upload returned or the empty string, and
    appends exactly one record to the collection: it carries that name,
    email, bio and avatar, the hash of the password, and an identifier
    no stored user has. The answer is 201 with the fields of the record
    and the token issued for its identifier. *)
Theorem register_success `{Collaborators} (req : Request.t) (w : World)
        (n e p : string) :
  Request.body req !! "name" = Some n -> n <> "" ->
  Request.body req !! "email" = Some e -> e <> "" ->
  Request.body req !! "password" = Some p -> p <> "" ->
  User.byEmail (Some e) (users w) = None ->
  (forall b err, ~ In (Upload b "avatars" (inl err)) (calls (register req) w)) ->
  writeOutcome (log (snd (register req w))) = None ->
  exists r,
    users (snd (register req w)) = users w ++ [r]
    /\ Stored.name r = n
    /\ Stored.email r = e
    /\ Stored.password r = hashPassword p
    /\ Stored.bio r = default "" (Request.body req !! "bio")
    /\ match Request.file req with
       | None => Stored.avatar r = ""
       | Some file =>
           In (Upload (File.buffer file) "avatars" (inr (Stored.avatar r)))
              (calls (register req) w)
       end
    /\ In (Create (Some n) (Some e) (Some p) (Stored.bio r) (Stored.avatar r))
          (calls (register req) w)
    /\ (forall u, In u (users w) -> Stored._id u <> Stored._id r)
    /\ fst (register req w)
       = ApiResponse.success 201 "User registered successfully"
           [("_id", JId (Stored._id r)); ("name", JStr n); ("email", JStr e);
            ("bio", JStr (Stored.bio r)); ("avatar", JStr (Stored.avatar r));
            ("token", JStr (generateToken (Stored._id r)))].
Proof.
  intros Hn Hn' He He' Hp Hp' Hfresh Hup Hw.
  assert (Hg : Js.truthy (Request.body req !! "name")
               && Js.truthy (Request.body req !! "email")
               && Js.truthy (Request.body req !! "password") = true).
  { rewrite Hn, He, Hp. simpl.
    apply String.eqb_neq in Hn', He', Hp'. rewrite Hn', He', Hp'. reflexivity. }
  assert (Hu : User.byEmail (Request.body req !! "email") (users w) = None)
    by (rewrite He; exact Hfresh).
  unfold calls in *. rewrite (register_fresh req w Hg Hu) in *.
  assert (Hrec : forall avatar,
             let r := recordCreated req w avatar in
             Stored.name r = n /\ Stored.email r = e
             /\ Stored.password r = hashPassword p
             /\ Stored.bio r = default "" (Request.body req !! "bio")
             /\ Stored.avatar r = avatar
             /\ (forall u, In u (users w) -> Stored._id u <> Stored._id r)).
  { intros avatar. unfold recordCreated.
    cbn [Stored.name Stored.email Stored.password Stored.bio Stored.avatar
         Stored._id].
    rewrite Hn, He, Hp. cbn [default]. repeat split.
    - destruct (Request.body req !! "bio") as [b|]; simpl; [|reflexivity].
      destruct (String.eqb_spec b ""); congruence.
    - intros u Hin Heq. pose proof (freshId_above _ _ Hin) as Hlt.
      rewrite Heq in Hlt. exact (N.lt_irrefl _ Hlt). }
  assert (Hout : forall avatar l,
             fst (createdOutcome req w avatar l)
             = ApiResponse.success 201 "User registered successfully"
                 [("_id", JId (Stored._id (recordCreated req w avatar)));
                  ("name", JStr n); ("email", JStr e);
                  ("bio", JStr (Stored.bio (recordCreated req w avatar)));
                  ("avatar", JStr (Stored.avatar (recordCreated req w avatar)));
                  ("token",
                   JStr (generateToken
                           (Stored._id (recordCreated req w avatar))))]).
  { intros avatar l. unfold createdOutcome, recordCreated.
    rewrite Hn, He. reflexivity. }
  assert (Hcall : forall avatar,
             Create (Some n) (Some e) (Some p)
                    (Stored.bio (recordCreated req w avatar))
                    (Stored.avatar (recordCreated req w avatar))
             = createCall req avatar).
  { intros avatar. unfold createCall, recordCreated. rewrite Hn, He, Hp.
    reflexivity. }
  destruct (Request.file req) as [file|].
  - destruct (uploadOutcome (log w) (File.buffer file) "avatars") as [e'|url].
    + exfalso. apply (Hup (File.buffer file) e'). simpl.
      rewrite drop_log_1. left. reflexivity.
    + rewrite createStep_log in Hw.
      rewrite (createStep_accepted req w _ _ Hw) in *.
      exists (recordCreated req w url).
      destruct (Hrec url) as (H1 & H2 & H3 & H4 & H5 & H6).
      split; [reflexivity|]. do 4 (split; [assumption|]).
      split; [|split; [|split; [assumption | apply Hout]]].
      * rewrite H5. simpl. rewrite <- app_assoc, drop_app_length.
        left. reflexivity.
      * rewrite Hcall. unfold createdOutcome. cbn [snd log].
        rewrite <- app_assoc, drop_app_length. right. left. reflexivity.
  - rewrite createStep_log in Hw.
    rewrite (createStep_accepted req w _ _ Hw) in *.
    exists (recordCreated req w "").
    destruct (Hrec "") as (H1 & H2 & H3 & H4 & H5 & H6).
    split; [reflexivity|]. do 5 (split; [assumption|]).
    split; [|split; [assumption | apply Hout]].
    rewrite Hcall. unfold createdOutcome. cbn [snd log].
    rewrite drop_log_1. left. reflexivity.
Qed.

Lemma register_success_witness :
  let req := Request.mk {[ "name" := "Carol"; "email" := "carol@example.org";
                           "password" := "pw" ]} (Some demoFile) 0%N in
  exists r,
    users (snd (@register (demoCollaborators true true) req demoWorld))
    = users demoWorld ++ [r]
    /\ Stored.name r = "Carol"
    /\ Stored.password r = "hash:pw"
    /\ Stored.bio r = "".
Proof.
  intros req.
  destruct (@register_success (demoCollaborators true true) req demoWorld
              "Carol" "carol@example.org" "pw")
    as (r & Hus & Hn & _ & Hp & Hb & _).
  - reflexivity.
  - discriminate.
  - reflexivity.
  - discriminate.
  - reflexivity.
  - discriminate.
  - reflexivity.
  - intros b err. vm_compute. intros [Hin | [Hin | []]]; discriminate.
  - reflexivity.
  - exists r. split; [exact Hus|]. split; [exact Hn|]. split; [exact Hp|].
    exact Hb.
Defined.

(** X3. register never asks the media host to delete anything and makes
    at most one upload call; the upload is made, into "avatars" and with
    the buffer of the file, only when name, email and password are
    present and no stored user carries the email. *)
Theorem register_media_calls `{Collaborators} (req : Request.t) (w : World) :
  mediaCalls (calls (register req) w) = []
  \/ exists file,
       Request.file req = Some file
       /\ present (Request.body req !! "name")
       /\ present (Request.body req !! "email")
       /\ present (Request.body req !! "password")
       /\ User.byEmail (Request.body req !! "email") (users w) = None
       /\ mediaCalls (calls (register req) w)
          = [CallUpload (File.buffer file) "avatars"].
Proof.
  unfold calls.
  destruct (register_cases req w)
    as [Hr | [Hr | (Hn & He & Hp & Hu & Hr)]]; rewrite Hr;
    try (left; simpl; rewrite drop_log_0; reflexivity).
  destruct (Request.file req) as [file|].
  - right. exists file. do 5 (split; [auto|]).
    destruct (uploadOutcome (log w) (File.buffer file) "avatars").
    + simpl. rewrite drop_log_1. reflexivity.
    + rewrite createStep_log, <- app_assoc, drop_app_length. reflexivity.
  - left. rewrite createStep_log, drop_log_1. reflexivity.
Qed.

(** X4. register never alters or removes a stored record: it appends
    exactly one record when it answers 201, and leaves the collection as
    it was with every other answer. *)
Theorem register_appends `{Collaborators} (req : Request.t) (w : World) :
  (users (snd (register req w)) = users w
   /\ forall ok msg data, fst (register req w) <> Json 201 ok msg data)
  \/ (exists r data,
         users (snd (register req w)) = users w ++ [r]
         /\ fst (register req w)
            = Json 201 true "User registered successfully" (Some data)).
Proof.
  destruct (register_cases req w)
    as [Hr | [Hr | (Hn & He & Hp & Hu & Hr)]]; rewrite Hr;
    try (left; split; [reflexivity | intros ok msg data; discriminate]).
  assert (Hstep : forall avatar l,
             (users (snd (createStep req w avatar l)) = users w
              /\ forall ok msg data,
                   fst (createStep req w avatar l) <> Json 201 ok msg data)
             \/ (exists r data,
                    users (snd (createStep req w avatar l)) = users w ++ [r]
                    /\ fst (createStep req w avatar l)
                       = Json 201 true "User registered successfully"
                              (Some data))).
  { intros avatar l.
    destruct (createStep_cases req w avatar l) as [[_ Hc] | (e & _ & Hc)];
      rewrite Hc.
    - right. eexists _, _. split; reflexivity.
    - left. split; [reflexivity | intros ok msg data; discriminate]. }
  destruct (Request.file req) as [file|]; [|apply Hstep].
  destruct (uploadOutcome (log w) (File.buffer file) "avatars");
    [|apply Hstep].
  left. split; [reflexivity | intros ok msg data; discriminate].
Qed.

(** ** Further properties of login *)

(** The runs of login, case by case. *)
Lemma login_cases `{Collaborators} (req : Request.t) (w : World) :
  ((missing (Request.body req !! "email")
    \/ missing (Request.body req !! "password"))
   /\ login req w
      = (ApiResponse.error 400 "Please provide email and password", w))
  \/ (present (Request.body req !! "email")
      /\ present (Request.body req !! "password")
      /\ match User.byEmail (Request.body req !! "email") (users w) with
         | Some u =>
             if comparePassword (default "" (Request.body req !! "password"))
                                (Stored.password u)
             then login req w = (loggedIn u, w)
             else login req w
                  = (ApiResponse.error 401 "Invalid email or password", w)
         | None =>
             login req w
             = (ApiResponse.error 401 "Invalid email or password", w)
         end).
Proof.
  unfold login, handler, bind, User.findOne.
  destruct (Js.truthy (Request.body req !! "email")) eqn:He.
  - destruct (Js.truthy (Request.body req !! "password")) eqn:Hp.
    + right. simpl.
      pose proof He as He'. pose proof Hp as Hp'.
      rewrite truthy_true_present in He', Hp'. split; [exact He'|].
      split; [exact Hp'|]. destruct Hp' as (p & Hpp & _).
      destruct (User.byEmail (Request.body req !! "email") (users w)) as [u|];
        [|reflexivity].
      simpl. unfold User.matchPassword. simpl. rewrite Hpp. simpl. unfold ret.
      destruct (comparePassword p (Stored.password u)); reflexivity.
    + left. rewrite truthy_false_missing in Hp. split; [auto|].
      simpl. reflexivity.
  - left. rewrite truthy_false_missing in He. split; [auto|]. reflexivity.
Qed.

(** X5. A login call in which the email or the password is missing is
    answered 400 "Please provide email and password" and leaves the
    world as it was. *)
Theorem login_missing_field `{Collaborators} (req : Request.t) (w : World) :
  missing (Request.body req !! "email")
  \/ missing (Request.body req !! "password") ->
  login req w = (ApiResponse.error 400 "Please provide email and password", w).
Proof.
  intros Hm. destruct (login_cases req w) as [[_ Hr] | (He & Hp & _)];
    [exact Hr|].
  exfalso. rewrite <- truthy_true_present in He, Hp.
  rewrite <- !truthy_false_missing in Hm.
  destruct Hm as [Hm | Hm]; congruence.
Qed.

Lemma login_missing_field_witness :
  @login (demoCollaborators true true)
         (Request.mk {[ "email" := "alice@example.org"; "password" := "" ]}
                     None 0%N) demoWorld
  = (ApiResponse.error 400 "Please provide email and password", demoWorld).
Proof.
  apply (@login_missing_field (demoCollaborators true true)).
  right. right. reflexivity.
Defined.

(** X6. A login call with email and password present, whose email is
    carried by a stored user and whose password verifies against the
    stored hash of the first such user, is answered 200 "Login
    successful" with the identifier, name, email, bio and avatar of that
    user and the token issued for its identifier. *)
Theorem login_success `{Collaborators} (req : Request.t) (w : World)
        (e p : string) (u : Stored.t) :
  Request.body req !! "email" = Some e -> e <> "" ->
  Request.body req !! "password" = Some p -> p <> "" ->
  User.byEmail (Some e) (users w) = Some u ->
  comparePassword p (Stored.password u) = true ->
  fst (login req w)
  = ApiResponse.success 200 "Login successful"
      [("_id", JId (Stored._id u)); ("name", JStr (Stored.name u));
       ("email", JStr (Stored.email u)); ("bio", JStr (Stored.bio u));
       ("avatar", JStr (Stored.avatar u));
       ("token", JStr (generateToken (Stored._id u)))].
Proof.
  intros He He' Hp Hp' Hu Hcmp.
  destruct (login_cases req w) as [[Hm _] | (_ & _ & Hr)].
  - exfalso. unfold missing in Hm. rewrite He, Hp in Hm.
    destruct Hm as [[Hm | Hm] | [Hm | Hm]]; congruence.
  - rewrite He, Hp in Hr. rewrite Hu in Hr. simpl in Hr. rewrite Hcmp in Hr.
    rewrite Hr. reflexivity.
Qed.

Lemma login_success_witness :
  fst (@login (demoCollaborators true true)
              (Request.mk {[ "email" := "bob@example.org";
                             "password" := "hunter2" ]} None 0%N) demoWorld)
  = ApiResponse.success 200 "Login successful"
      [("_id", JId 2%N); ("name", JStr "Bob");
       ("email", JStr "bob@example.org"); ("bio", JStr "");
       ("avatar", JStr "https://media.example/avatars/bob.png");
       ("token", JStr "signed-token")].
Proof.
  apply (@login_success (demoCollaborators true true) _ demoWorld
           "bob@example.org" "hunter2" bob);
    try reflexivity; discriminate.
Defined.

(** X7. login and getMe only read: whatever the request and the answer,
    the world after the call is the world before it, so no record is
    written and no collaborator call is logged. *)
Theorem login_getMe_read_only `{Collaborators} (req : Request.t) (w : World) :
  snd (login req w) = w /\ snd (getMe req w) = w.
Proof.
  split.
  - destruct (login_cases req w) as [[_ Hr] | (_ & _ & Hr)].
    + rewrite Hr. reflexivity.
    + destruct (User.byEmail (Request.body req !! "email") (users w)) as [u|].
      * destruct (comparePassword _ _); rewrite Hr; reflexivity.
      * rewrite Hr. reflexivity.
  - destruct (User.lookup (Request.user req) (users w)) as [u|] eqn:Hu.
    + rewrite (getMe_found req w u Hu). reflexivity.
    + rewrite (getMe_not_found req w Hu). reflexivity.
Qed.

(** X8. No payload answered by register or by login has a [password]
    property, although register holds the password of the request and
    login loads the stored hash. *)
Theorem auth_payloads_exclude_password `{Collaborators} (req : Request.t)
        (w : World) (st : N) (ok : bool) (msg : string)
        (data : gmap string JsVal) :
  fst (register req w) = Json st ok msg (Some data)
  \/ fst (login req w) = Json st ok msg (Some data) ->
  data !! "password" = None.
Proof.
  intros [Hr | Hr].
  - destruct (register_cases req w)
      as [Hc | [Hc | (_ & _ & _ & _ & Hc)]]; rewrite Hc in Hr;
      try discriminate.
    assert (Hstep : forall avatar l,
               fst (createStep req w avatar l) = Json st ok msg (Some data) ->
               data !! "password" = None).
    { intros avatar l Hs.
      destruct (createStep_cases req w avatar l) as [[_ Heq] | (e & _ & Heq)];
        rewrite Heq in Hs; [|discriminate].
      unfold createdOutcome, ApiResponse.success in Hs. cbn [fst] in Hs.
      injection Hs as _ _ _ <-. no_such_key. }
    destruct (Request.file req) as [file|]; [|exact (Hstep _ _ Hr)].
    destruct (uploadOutcome (log w) (File.buffer file) "avatars");
      [discriminate | exact (Hstep _ _ Hr)].
  - destruct (login_cases req w) as [[_ Hc] | (_ & _ & Hc)].
    + rewrite Hc in Hr. discriminate.
    + destruct (User.byEmail (Request.body req !! "email") (users w)) as [u|].
      * destruct (comparePassword _ _); rewrite Hc in Hr; [|discriminate].
        unfold loggedIn, ApiResponse.success in Hr. cbn [fst] in Hr.
        injection Hr as _ _ _ <-. no_such_key.
      * rewrite Hc in Hr. discriminate.
Qed.

Lemma auth_payloads_exclude_password_witness :
  exists data : gmap string JsVal,
    fst (@login (demoCollaborators true true)
                (Request.mk {[ "email" := "bob@example.org";
                               "password" := "hunter2" ]} None 0%N) demoWorld)
    = Json 200 true "Login successful" (Some data)
    /\ data !! "password" = None.
Proof.
  eexists. split; [reflexivity|].
  eapply (@auth_payloads_exclude_password (demoCollaborators true true)
            (Request.mk {[ "email" := "bob@example.org";
                           "password" := "hunter2" ]} None 0%N) demoWorld).
  right. reflexivity.
Defined.

(** ** Further properties of updateProfile *)

(** The run of an update of a stored user: it stops at a failed upload,
    or it reaches the save. *)
Lemma updateProfile_trace `{Collaborators} (req : Request.t) (w : World)
      (u : Stored.t) :
  User.lookup (Request.user req) (users w) = Some u ->
  (exists file e,
      Request.file req = Some file
      /\ updateProfile req w
         = (Next e, mkWorld (users w) (log w ++ calls (updateProfile req) w)
                            (clock w))
      /\ saveCalls (calls (updateProfile req) w) = []
      /\ In (Upload (File.buffer file) "avatars" (inl e))
            (calls (updateProfile req) w))
  \/ (exists avatar before,
         calls (updateProfile req) w
         = before ++ [Save (docToSave req u avatar)]
         /\ saveCalls before = []
         /\ (Request.file req = None -> avatar = Stored.avatar u)
         /\ updateProfile req w = saveStep req w u avatar (log w ++ before)).
Proof.
  intros Hu. rewrite (updateProfile_calls req w u Hu).
  rewrite (updateProfile_found req w u Hu).
  destruct (Request.file req) as [file|].
  - cbv zeta.
    assert (Hl : exists k, logAfterCleanup (Stored.avatar u) (log w)
                           = log w ++ k /\ saveCalls k = []).
    { unfold logAfterCleanup. destruct (negb _ && negb _).
      - eexists. split; reflexivity.
      - exists []. split; [symmetry; apply app_nil_r | reflexivity]. }
    destruct Hl as (k & Hk & Hsk). rewrite Hk, drop_app_length.
    assert (Hsapp : forall ev, saveCalls [ev] = [] -> saveCalls (k ++ [ev]) = []).
    { intros ev Hev. clear Hk. induction k as [|x k IH]; [exact Hev|].
      destruct x; simpl in *; try discriminate; auto. }
    destruct (uploadOutcome _ (File.buffer file) "avatars") as [e|url].
    + left. exists file, e. split; [reflexivity|].
      split; [rewrite <- app_assoc; reflexivity|].
      split; [apply Hsapp; reflexivity|].
      apply in_or_app. right. left. reflexivity.
    + right. exists url, (k ++ [Upload (File.buffer file) "avatars" (inr url)]).
      split; [rewrite <- app_assoc; reflexivity|].
      split; [apply Hsapp; reflexivity|].
      split; [discriminate|]. rewrite <- app_assoc. reflexivity.
  - right. exists (Stored.avatar u), []. rewrite app_nil_r.
    split; [reflexivity|]. split; [reflexivity|]. split; reflexivity.
Qed.

(** The collection after an update of a stored user. *)
Lemma updateProfile_users `{Collaborators} (req : Request.t) (w : World)
      (u : Stored.t) :
  User.lookup (Request.user req) (users w) = Some u ->
  (users (snd (updateProfile req w)) = users w
   /\ exists e, fst (updateProfile req w) = Next e)
  \/ (exists avatar l,
         updateProfile req w = savedOutcome req w u avatar l
         /\ (Request.file req = None -> avatar = Stored.avatar u)).
Proof.
  intros Hu.
  destruct (updateProfile_trace req w u Hu)
    as [(file & e & _ & Hrun & _) | (avatar & before & _ & _ & Hav & Hrun)];
    rewrite Hrun.
  - left. split; [reflexivity | eauto].
  - unfold saveStep. destruct (writeOutcome _) as [e|].
    + left. split; [reflexivity | eauto].
    + right. eauto.
Qed.

Lemma replace_ids (id : Id) (r' : Stored.t) (l : list Stored.t) :
  Stored._id r' = id ->
  Stored._id <$> ((fun x => if User.hasId id x then r' else x) <$> l)
  = Stored._id <$> l.
Proof.
  intros Hid. induction l as [|x l IH]; [reflexivity|].
  cbn [fmap list_fmap] in *. rewrite IH. f_equal.
  destruct (User.hasId id x) eqn:Hx; [|reflexivity].
  unfold User.hasId in Hx. apply N.eqb_eq in Hx. congruence.
Qed.

Lemma replace_other (id : Id) (r' r : Stored.t) (l : list Stored.t) (i : nat) :
  l !! i = Some r -> Stored._id r <> id ->
  ((fun x => if User.hasId id x then r' else x) <$> l) !! i = Some r.
Proof.
  intros Hl Hne. rewrite list_lookup_fmap, Hl. simpl.
  destruct (User.hasId id r) eqn:Hr; [|reflexivity].
  unfold User.hasId in Hr. apply N.eqb_eq in Hr. contradiction.
Qed.

Lemma unique_by_id (l : list Stored.t) (x y : Stored.t) :
  NoDup (Stored._id <$> l) -> In x l -> In y l ->
  Stored._id x = Stored._id y -> x = y.
Proof.
  induction l as [|z l IH]; [contradiction|].
  cbn [fmap list_fmap]. intros Hnd Hx Hy Heq.
  apply NoDup_cons in Hnd as [Hz Hnd].
  assert (Hmem : forall v, In v l -> Stored._id v ∈ Stored._id <$> l).
  { intros v Hv. apply list_elem_of_fmap. exists v. split; [reflexivity|].
    apply list_elem_of_In. exact Hv. }
  destruct Hx as [-> | Hx]; destruct Hy as [-> | Hy]; auto.
  - exfalso. apply Hz. rewrite Heq. auto.
  - exfalso. apply Hz. rewrite <- Heq. auto.
Qed.

Lemma lookup_In (id : Id) (l : list Stored.t) (u : Stored.t) :
  User.lookup id l = Some u -> In u l.
Proof. intros Hf. apply find_some in Hf as [Hin _]. exact Hin. Qed.

Lemma replace_unique (id : Id) (u r' : Stored.t) (l : list Stored.t)
      {A} (f : Stored.t -> A) :
  NoDup (Stored._id <$> l) -> User.lookup id l = Some u -> f r' = f u ->
  f <$> ((fun x => if User.hasId id x then r' else x) <$> l) = f <$> l.
Proof.
  intros Hnd Hu Hf. pose proof (lookup_In _ _ _ Hu) as Hin.
  pose proof (lookup_hasId _ _ _ Hu) as Hid.
  rewrite <- list_fmap_compose. apply list_eq_Forall2, Forall2_fmap.
  apply Forall_Forall2_diag, Forall_forall. intros x Hx. simpl.
  destruct (User.hasId id x) eqn:Hhx; [|reflexivity].
  unfold User.hasId in Hhx. apply N.eqb_eq in Hhx.
  rewrite Hf. f_equal. apply (unique_by_id l); auto.
  - apply list_elem_of_In. exact Hx.
  - congruence.
Qed.

Lemma saveCalls_media (l : list Event) :
  saveCalls l = [] -> forall d, ~ In (Save d) l.
Proof.
  induction l as [|ev l IH]; intros Hs d Hin; [contradiction|].
  destruct ev; simpl in Hs; try discriminate;
    (destruct Hin as [Hin | Hin]; [discriminate | exact (IH Hs d Hin)]).
Qed.

(** X9. An update without a file makes no call to the media host; on a
    stored user its outcome is that of the save. When the repository
    accepts the save, the update answers 200 and the stored avatar stays
    the one it was; when the repository rejects it, the error of the
    save is passed to [next] and the collection is left as it was. *)
Theorem updateProfile_without_file `{Collaborators} (req : Request.t)
        (w : World) :
  Request.file req = None ->
  mediaCalls (calls (updateProfile req) w) = []
  /\ forall u,
       User.lookup (Request.user req) (users w) = Some u ->
       (writeOutcome (log (snd (updateProfile req w))) = None ->
        exists u' data,
          fst (updateProfile req w)
          = Json 200 true "Profile updated successfully" (Some data)
          /\ data !! "avatar" = Some (JStr (Stored.avatar u))
          /\ User.lookup (Request.user req)
                         (users (snd (updateProfile req w))) = Some u'
          /\ Stored.avatar u' = Stored.avatar u)
       /\ (forall e,
              writeOutcome (log (snd (updateProfile req w))) = Some e ->
              fst (updateProfile req w) = Next e
              /\ users (snd (updateProfile req w)) = users w).
Proof.
  intros Hfile. split.
  - destruct (User.lookup (Request.user req) (users w)) as [u|] eqn:Hu.
    + rewrite (updateProfile_calls req w u Hu), Hfile. reflexivity.
    + unfold calls. rewrite (updateProfile_not_found req w Hu). simpl.
      rewrite drop_log_0. reflexivity.
  - intros u Hu. rewrite (updateProfile_found req w u Hu), Hfile.
    rewrite saveStep_log. split.
    + intros Hw. rewrite (saveStep_accepted req w u _ _ Hw).
      destruct (savedOutcome_avatar req w u (Stored.avatar u) (log w) Hu)
        as [(data & Hr & Hd) (u' & Hl & Ha)].
      exists u', data. auto.
    + intros e Hw. rewrite (saveStep_rejected req w u _ _ e Hw).
      split; reflexivity.
Qed.

Lemma updateProfile_without_file_witness :
  let req := Request.mk {[ "bio" := "new bio" ]} None 1%N in
  mediaCalls (calls (@updateProfile (demoCollaborators false false) req)
                    demoWorld) = []
  /\ (exists u' data,
         fst (@updateProfile (demoCollaborators false false) req demoWorld)
         = Json 200 true "Profile updated successfully" (Some data)
         /\ data !! "avatar" = Some (JStr "uploads/avatars/old.png")
         /\ User.lookup 1%N
              (users (snd (@updateProfile (demoCollaborators false false)
                                          req demoWorld)))
            = Some u'
         /\ Stored.avatar u' = "uploads/avatars/old.png")
  /\ fst (@updateProfile rejectingCollaborators req demoWorld)
     = Next (MongoError "ValidationError")
  /\ users (snd (@updateProfile rejectingCollaborators req demoWorld))
     = users demoWorld.
Proof.
  intros req.
  destruct (@updateProfile_without_file (demoCollaborators false false) req
              demoWorld eq_refl) as [Hm Hok].
  destruct (@updateProfile_without_file rejectingCollaborators req
              demoWorld eq_refl) as [_ Hrej].
  split; [exact Hm|]. split.
  - apply (Hok alice eq_refl). reflexivity.
  - apply (Hrej alice eq_refl). reflexivity.
Defined.

(** X10. An update never adds or removes a record and never touches the
    record of another identifier: the identifiers of the collection are
    the same, in the same order, and every record whose identifier is
    not that of the caller is where and what it was. The record of the
    caller keeps its identifier, its email and its creation time. *)
Theorem updateProfile_frame `{Collaborators} (req : Request.t) (w : World) :
  Stored._id <$> users (snd (updateProfile req w)) = Stored._id <$> users w
  /\ (forall i r,
         users w !! i = Some r -> Stored._id r <> Request.user req ->
         users (snd (updateProfile req w)) !! i = Some r)
  /\ (forall u u',
         User.lookup (Request.user req) (users w) = Some u ->
         User.lookup (Request.user req) (users (snd (updateProfile req w)))
         = Some u' ->
         Stored._id u' = Stored._id u
         /\ Stored.email u' = Stored.email u
         /\ Stored.createdAt u' = Stored.createdAt u).
Proof.
  destruct (User.lookup (Request.user req) (users w)) as [u|] eqn:Hu.
  - pose proof (lookup_hasId _ _ _ Hu) as Hid.
    destruct (updateProfile_users req w u Hu)
      as [(Hus & _) | (avatar & l & Hrun & _)].
    + rewrite Hus. split; [reflexivity|]. split; [auto|].
      intros u0 u' Hu0 Hu'. rewrite Hu in Hu'. injection Hu0 as <-.
      injection Hu' as <-. auto.
    + rewrite Hrun. unfold savedOutcome. cbn [snd users]. rewrite Hid.
      split; [apply replace_ids; unfold recordSaved; simpl; exact Hid|].
      split; [intros i r Hl Hne; apply replace_other; assumption|].
      intros u0 u' Hu0 Hu'. injection Hu0 as <-.
      rewrite (lookup_replace _ u (recordSaved req u avatar) _ Hu) in Hu'.
      * injection Hu' as <-. auto.
      * unfold User.hasId, recordSaved. simpl. rewrite Hid. apply N.eqb_refl.
  - rewrite (updateProfile_not_found req w Hu). simpl.
    split; [reflexivity|]. split; [auto|]. intros u u' Hu0. discriminate.
Qed.

(** X11. The payload of a successful update shows what is stored: its
    [_id], [name], [email], [bio] and [avatar] are those of the record
    found under the identifier of the caller after the update. *)
Theorem updateProfile_payload_is_stored `{Collaborators} (req : Request.t)
        (w : World) (msg : string) (data : gmap string JsVal) :
  fst (updateProfile req w) = Json 200 true msg (Some data) ->
  exists u',
    User.lookup (Request.user req) (users (snd (updateProfile req w))) = Some u'
    /\ data = list_to_map [("_id", JId (Stored._id u'));
                           ("name", JStr (Stored.name u'));
                           ("email", JStr (Stored.email u'));
                           ("bio", JStr (Stored.bio u'));
                           ("avatar", JStr (Stored.avatar u'))].
Proof.
  intros Hr.
  destruct (User.lookup (Request.user req) (users w)) as [u|] eqn:Hu.
  - destruct (updateProfile_users req w u Hu)
      as [(_ & e & He) | (avatar & l & Hrun & _)].
    + rewrite He in Hr. discriminate.
    + rewrite Hrun in *. exists (recordSaved req u avatar).
      split; [apply lookup_saved; exact Hu|].
      unfold savedOutcome, ApiResponse.success in Hr. cbn [fst] in Hr.
      injection Hr as _ <-. reflexivity.
  - rewrite (updateProfile_not_found req w Hu) in Hr. discriminate.
Qed.

Lemma updateProfile_payload_is_stored_witness :
  let req := Request.mk {[ "name" := "Al" ]} (Some demoFile) 1%N in
  exists u' data,
    fst (@updateProfile (demoCollaborators true true) req demoWorld)
    = Json 200 true "Profile updated successfully" (Some data)
    /\ User.lookup 1%N
         (users (snd (@updateProfile (demoCollaborators true true) req
                                     demoWorld))) = Some u'
    /\ data = list_to_map [("_id", JId (Stored._id u'));
                           ("name", JStr (Stored.name u'));
                           ("email", JStr (Stored.email u'));
                           ("bio", JStr (Stored.bio u'));
                           ("avatar", JStr (Stored.avatar u'))].
Proof.
  intros req.
  assert (Hr : exists data,
             fst (@updateProfile (demoCollaborators true true) req demoWorld)
             = Json 200 true "Profile updated successfully" (Some data))
    by (eexists; reflexivity).
  destruct Hr as [data Hr].
  destruct (@updateProfile_payload_is_stored (demoCollaborators true true)
              req demoWorld _ data Hr) as (u' & Hl & Hd).
  exists u', data. auto.
Defined.

(** X12. An update that changes nothing changes nothing: with no file,
    no bio key, and a name and a password that are absent or empty, the
    collection after the update of a stored user is the collection
    before it, when identifiers are unique. *)
Theorem updateProfile_empty_patch `{Collaborators} (req : Request.t)
        (w : World) (u : Stored.t) :
  NoDup (Stored._id <$> users w) ->
  User.lookup (Request.user req) (users w) = Some u ->
  Request.file req = None ->
  missing (Request.body req !! "name") ->
  Request.body req !! "bio" = None ->
  missing (Request.body req !! "password") ->
  users (snd (updateProfile req w)) = users w.
Proof.
  intros Hnd Hu Hfile Hn Hb Hp.
  rewrite (updateProfile_found req w u Hu), Hfile.
  unfold saveStep. destruct (writeOutcome _); [reflexivity|].
  unfold savedOutcome. cbn [snd users].
  assert (Hrec : recordSaved req u (Stored.avatar u) = u).
  { unfold recordSaved. apply truthy_false_missing in Hp. rewrite Hp, Hb.
    destruct Hn as [Hn | Hn]; rewrite Hn; destruct u; reflexivity. }
  rewrite Hrec, (lookup_hasId _ _ _ Hu).
  rewrite <- (list_fmap_id (users w)) at 2.
  rewrite <- (list_fmap_id (_ <$> users w)).
  apply (replace_unique _ u u); auto.
Qed.

Lemma updateProfile_empty_patch_witness :
  users (snd (@updateProfile (demoCollaborators true true)
                (Request.mk {[ "name" := "" ]} None 2%N) demoWorld))
  = users demoWorld.
Proof.
  apply (@updateProfile_empty_patch (demoCollaborators true true) _ demoWorld
           bob).
  - apply (NoDup_cons_2 1%N [2%N]); [|apply NoDup_singleton].
    intros Hin. apply list_elem_of_singleton in Hin. discriminate.
  - reflexivity.
  - reflexivity.
  - right. reflexivity.
  - reflexivity.
  - left. reflexivity.
Defined.

(** X13. An update calls [save] at most once, as its last call. When it
    calls [save], it answers 200 if the repository accepts the save, and
    otherwise passes the error of the save to [next] and leaves the
    collection as it was. When it does not call [save], it does not
    answer 200 and leaves the collection as it was. *)
Theorem updateProfile_single_save `{Collaborators} (req : Request.t)
        (w : World) :
  (exists before d,
      calls (updateProfile req) w = before ++ [Save d]
      /\ saveCalls before = []
      /\ match writeOutcome (log w ++ before ++ [Save d]) with
         | None =>
             exists data,
               fst (updateProfile req w)
               = Json 200 true "Profile updated successfully" (Some data)
         | Some e =>
             fst (updateProfile req w) = Next e
             /\ users (snd (updateProfile req w)) = users w
         end)
  \/ (saveCalls (calls (updateProfile req) w) = []
      /\ (forall ok msg data, fst (updateProfile req w) <> Json 200 ok msg data)
      /\ users (snd (updateProfile req w)) = users w).
Proof.
  destruct (User.lookup (Request.user req) (users w)) as [u|] eqn:Hu.
  - destruct (updateProfile_trace req w u Hu)
      as [(file & e & _ & Hrun & Hs & _)
         | (avatar & before & Hc & Hs & _ & Hrun)].
    + right. split; [exact Hs|]. rewrite Hrun.
      split; [intros ok msg data; discriminate | reflexivity].
    + left. exists before, (docToSave req u avatar).
      split; [exact Hc|]. split; [exact Hs|].
      rewrite Hrun. unfold saveStep. rewrite <- app_assoc.
      destruct (writeOutcome _) as [e|].
      * split; reflexivity.
      * eexists. reflexivity.
  - right. unfold calls. rewrite (updateProfile_not_found req w Hu). simpl.
    rewrite drop_log_0. split; [reflexivity|].
    split; [intros ok msg data; discriminate | reflexivity].
Qed.

(** X14. When the upload of an update succeeds and the repository
    accepts the save, the update succeeds: it answers 200 with the URL
    the media host returned as [avatar], and that URL is the avatar of
    the record stored under the identifier of the caller. *)
Theorem updateProfile_avatar_replaced `{Collaborators} (req : Request.t)
        (w : World) (buffer : Buffer) (folder url : string) :
  In (Upload buffer folder (inr url)) (calls (updateProfile req) w) ->
  writeOutcome (log (snd (updateProfile req w))) = None ->
  exists u' data,
    fst (updateProfile req w)
    = Json 200 true "Profile updated successfully" (Some data)
    /\ data !! "avatar" = Some (JStr url)
    /\ User.lookup (Request.user req) (users (snd (updateProfile req w)))
       = Some u'
    /\ Stored.avatar u' = url.
Proof.
  intros Hin Hw.
  destruct (User.lookup (Request.user req) (users w)) as [u|] eqn:Hu.
  - rewrite (updateProfile_calls req w u Hu) in Hin.
    rewrite (updateProfile_found req w u Hu) in *.
    destruct (Request.file req) as [file|].
    + cbv zeta in *. rewrite cleanup_calls in Hin.
      assert (Hup : In (Upload buffer folder (inr url))
                       match uploadOutcome
                               (logAfterCleanup (Stored.avatar u) (log w))
                               (File.buffer file) "avatars" with
                       | inl e => [Upload (File.buffer file) "avatars" (inl e)]
                       | inr url' =>
                           [Upload (File.buffer file) "avatars" (inr url');
                            Save (docToSave req u url')]
                       end).
      { apply in_app_or in Hin as [Hin | Hin]; [|exact Hin].
        destruct (negb _ && negb _); simpl in Hin; intuition discriminate. }
      destruct (uploadOutcome _ (File.buffer file) "avatars") as [e|url'].
      * simpl in Hup. intuition discriminate.
      * assert (url' = url) as ->.
        { simpl in Hup. destruct Hup as [Hup | [Hup | []]];
            [congruence | discriminate]. }
        rewrite saveStep_log in Hw.
        rewrite (saveStep_accepted req w u _ _ Hw).
        destruct (savedOutcome_avatar req w u url
                    (logAfterCleanup (Stored.avatar u) (log w)
                     ++ [Upload (File.buffer file) "avatars" (inr url)]) Hu)
          as [(data & Hr & Hd) (u' & Hl & Ha)].
        exists u', data. auto.
    + simpl in Hin. intuition discriminate.
  - unfold calls in Hin. rewrite (updateProfile_not_found req w Hu) in Hin.
    simpl in Hin. rewrite drop_log_0 in Hin. destruct Hin.
Qed.

Lemma updateProfile_avatar_replaced_witness :
  let req := Request.mk ∅ (Some demoFile) 2%N in
  exists u' data,
    fst (@updateProfile (demoCollaborators true true) req demoWorld)
    = Json 200 true "Profile updated successfully" (Some data)
    /\ data !! "avatar" = Some (JStr "https://media.example/avatars/new.png")
    /\ User.lookup 2%N
         (users (snd (@updateProfile (demoCollaborators true true) req
                                     demoWorld))) = Some u'
    /\ Stored.avatar u' = "https://media.example/avatars/new.png".
Proof.
  intros req.
  apply (@updateProfile_avatar_replaced (demoCollaborators true true) req
           demoWorld (File.buffer demoFile) "avatars").
  - vm_compute. left. reflexivity.
  - reflexivity.
Defined.

(** ** How the handlers compose *)

(** X15. What a successful update answers is what getMe answers next:
    for the same caller, getMe on the world the update leaves answers
    200 with the same [_id], [name], [email], [bio] and [avatar]; its
    payload differs only by [createdAt]. *)
Theorem updateProfile_then_getMe `{Collaborators} (req req' : Request.t)
        (w : World) (msg : string) (data : gmap string JsVal) :
  fst (updateProfile req w) = Json 200 true msg (Some data) ->
  Request.user req' = Request.user req ->
  exists data',
    fst (getMe req' (snd (updateProfile req w)))
    = Json 200 true "User profile retrieved" (Some data')
    /\ forall k, k <> "createdAt" -> data' !! k = data !! k.
Proof.
  intros Hr Hsame.
  destruct (User.lookup (Request.user req) (users w)) as [u|] eqn:Hu.
  - destruct (updateProfile_users req w u Hu)
      as [(_ & e & He) | (avatar & l & Hrun & _)].
    + rewrite He in Hr. discriminate.
    + rewrite Hrun in *.
      pose proof (lookup_saved req w u avatar l Hu) as Hl.
      rewrite <- Hsame in Hl. rewrite (getMe_found req' _ _ Hl).
      eexists. split; [reflexivity|]. intros k Hk.
      unfold savedOutcome, ApiResponse.success in Hr. cbn [fst] in Hr.
      injection Hr as _ <-. unfold recordSaved.
      cbn [list_to_map foldr fst snd Stored._id Stored.name Stored.email
           Stored.bio Stored.avatar Stored.createdAt].
      repeat match goal with
             | |- <[?i := _]> _ !! k = <[?i := _]> _ !! k =>
                 destruct (decide (i = k)) as [<- | Hne];
                 [rewrite !lookup_insert_eq; reflexivity
                 |rewrite !(lookup_insert_ne _ i k) by exact Hne; clear Hne]
             end.
      apply lookup_insert_ne. congruence.
  - rewrite (updateProfile_not_found req w Hu) in Hr. discriminate.
Qed.

Lemma updateProfile_then_getMe_witness :
  let req := Request.mk {[ "name" := "Al"; "bio" := "" ]} (Some demoFile) 1%N in
  exists data',
    fst (@getMe (demoCollaborators true true) (Request.mk ∅ None 1%N)
           (snd (@updateProfile (demoCollaborators true true) req demoWorld)))
    = Json 200 true "User profile retrieved" (Some data')
    /\ data' !! "name" = Some (JStr "Al")
    /\ data' !! "bio" = Some (JStr "")
    /\ data' !! "avatar" = Some (JStr "https://media.example/avatars/new.png").
Proof.
  intros req.
  destruct (@updateProfile_then_getMe (demoCollaborators true true) req
              (Request.mk ∅ None 1%N) demoWorld
              "Profile updated successfully"
              (list_to_map [("_id", JId 1%N); ("name", JStr "Al");
                            ("email", JStr "alice@example.org");
                            ("bio", JStr "");
                            ("avatar",
                             JStr "https://media.example/avatars/new.png")]))
    as (data' & Hr & Hk).
  - reflexivity.
  - reflexivity.
  - exists data'. split; [exact Hr|].
    rewrite !Hk by discriminate. repeat split; reflexivity.
Defined.

Lemma find_app_last {A} (f : A -> bool) (l : list A) (x : A) :
  List.find f l = None -> f x = true -> List.find f (l ++ [x]) = Some x.
Proof.
  intros Hl Hx. induction l as [|y l IH]; simpl in *.
  - rewrite Hx. reflexivity.
  - destruct (f y); [discriminate | auto].
Qed.

(** What a registration that answers 201 leaves behind. *)
Lemma register_created `{Collaborators} (req : Request.t) (w : World)
      (ok : bool) (msg : string) (data : option (gmap string JsVal)) :
  fst (register req w) = Json 201 ok msg data ->
  exists avatar l,
    present (Request.body req !! "name")
    /\ present (Request.body req !! "email")
    /\ present (Request.body req !! "password")
    /\ User.byEmail (Request.body req !! "email") (users w) = None
    /\ register req w = createdOutcome req w avatar l.
Proof.
  intros Hr.
  destruct (register_cases req w)
    as [Hc | [Hc | (Hn & He & Hp & Hu & Hc)]]; rewrite Hc in Hr;
    try discriminate.
  assert (Hstep : forall avatar l,
             fst (createStep req w avatar l) = Json 201 ok msg data ->
             createStep req w avatar l = createdOutcome req w avatar l).
  { intros avatar l Hs.
    destruct (createStep_cases req w avatar l) as [[_ Heq] | (e & _ & Heq)];
      [exact Heq | rewrite Heq in Hs; discriminate]. }
  destruct (Request.file req) as [file|].
  - destruct (uploadOutcome (log w) (File.buffer file) "avatars") as [e|url];
      [discriminate|].
    exists url. eexists. rewrite Hc, (Hstep _ _ Hr). auto 10.
  - exists "". eexists. rewrite Hc, (Hstep _ _ Hr). auto 10.
Qed.

Lemma byEmail_created `{Collaborators} (req : Request.t) (w : World)
      (avatar : string) (l : list Event) :
  present (Request.body req !! "email") ->
  User.byEmail (Request.body req !! "email") (users w) = None ->
  User.byEmail (Request.body req !! "email")
               (users (snd (createdOutcome req w avatar l)))
  = Some (recordCreated req w avatar).
Proof.
  intros (e & He & _) Hu. unfold createdOutcome. cbn [snd users].
  apply find_app_last; [exact Hu|].
  unfold recordCreated. rewrite He. simpl. apply String.eqb_refl.
Qed.

(** X16. Registering then logging in works: after a registration that
    answers 201, a login with the same email and password is answered
    200 with the identifier and the email of the registration, provided
    a password verifies against its own hash. *)
Theorem register_then_login `{Collaborators} (req req' : Request.t) (w : World)
        (msg : string) (data : gmap string JsVal) :
  (forall p, comparePassword p (hashPassword p) = true) ->
  fst (register req w) = Json 201 true msg (Some data) ->
  Request.body req' !! "email" = Request.body req !! "email" ->
  Request.body req' !! "password" = Request.body req !! "password" ->
  exists data',
    fst (login req' (snd (register req w)))
    = Json 200 true "Login successful" (Some data')
    /\ data' !! "_id" = data !! "_id"
    /\ data' !! "email" = data !! "email"
    /\ is_Some (data' !! "_id").
Proof.
  intros Hhash Hr He' Hp'.
  destruct (register_created req w _ _ _ Hr)
    as (avatar & l & Hn & He & Hp & Hu & Hrun).
  rewrite Hrun in *.
  pose proof (byEmail_created req w avatar l He Hu) as Hfound.
  destruct (login_cases req' (snd (createdOutcome req w avatar l)))
    as [[Hm _] | (_ & _ & Hl)].
  - exfalso. rewrite He', Hp' in Hm.
    rewrite <- !truthy_false_missing in Hm.
    rewrite <- truthy_true_present in He, Hp.
    destruct Hm; congruence.
  - rewrite He', Hfound, Hp' in Hl.
    destruct Hp as (p & Hpp & _). rewrite Hpp in Hl.
    unfold recordCreated in Hl at 1. rewrite Hpp in Hl.
    cbn [Stored.password default] in Hl. rewrite Hhash in Hl.
    rewrite Hl. unfold loggedIn, ApiResponse.success. cbn [fst].
    eexists. split; [reflexivity|].
    unfold createdOutcome, ApiResponse.success in Hr. cbn [fst] in Hr.
    injection Hr as _ <-. unfold recordCreated.
    cbn [list_to_map foldr fst snd Stored._id Stored.email].
    rewrite !lookup_insert_eq.
    rewrite !(lookup_insert_ne _ "_id" "email") by discriminate.
    rewrite !(lookup_insert_ne _ "name" "email") by discriminate.
    rewrite !lookup_insert_eq. eauto.
Qed.

Lemma register_then_login_witness :
  let req := Request.mk {[ "name" := "Carol"; "email" := "carol@example.org";
                           "password" := "pw" ]} None 0%N in
  let req' := Request.mk {[ "email" := "carol@example.org";
                            "password" := "pw" ]} None 0%N in
  exists data',
    fst (@login (demoCollaborators true true) req'
           (snd (@register (demoCollaborators true true) req demoWorld)))
    = Json 200 true "Login successful" (Some data')
    /\ data' !! "_id" = Some (JId 3%N).
Proof.
  intros req req'.
  destruct (@register_then_login (demoCollaborators true true) req req'
              demoWorld "User registered successfully"
              (list_to_map [("_id", JId 3%N); ("name", JStr "Carol");
                            ("email", JStr "carol@example.org");
                            ("bio", JStr ""); ("avatar", JStr "");
                            ("token", JStr "signed-token")]))
    as (data' & Hr & Hid & _).
  - intros p. simpl. apply String.eqb_refl.
  - reflexivity.
  - reflexivity.
  - reflexivity.
  - exists data'. split; [exact Hr|]. rewrite Hid. reflexivity.
Defined.

(** X17. Registering twice with the same email: after a registration
    that answers 201, a registration carrying the same email, with name
    and password present, is answered 400 "User already exists" and
    leaves the world as the first registration left it. *)
Theorem register_twice `{Collaborators} (req req' : Request.t) (w : World)
        (msg : string) (data : gmap string JsVal) :
  fst (register req w) = Json 201 true msg (Some data) ->
  Request.body req' !! "email" = Request.body req !! "email" ->
  present (Request.body req' !! "name") ->
  present (Request.body req' !! "password") ->
  register req' (snd (register req w))
  = (ApiResponse.error 400 "User already exists", snd (register req w)).
Proof.
  intros Hr He' Hn' Hp'.
  destruct (register_created req w _ _ _ Hr)
    as (avatar & l & _ & He & _ & Hu & Hrun).
  rewrite Hrun.
  pose proof (byEmail_created req w avatar l He Hu) as Hfound.
  apply (register_taken req' _ (recordCreated req w avatar)).
  - rewrite <- truthy_true_present in Hn', Hp', He.
    rewrite He', Hn', Hp', He. reflexivity.
  - rewrite He'. exact Hfound.
Qed.

Lemma register_twice_witness :
  let req := Request.mk {[ "name" := "Carol"; "email" := "carol@example.org";
                           "password" := "pw" ]} None 0%N in
  let w' := snd (@register (demoCollaborators true true) req demoWorld) in
  @register (demoCollaborators true true) req w'
  = (ApiResponse.error 400 "User already exists", w').
Proof.
  intros req w'.
  apply (@register_twice (demoCollaborators true true) req req demoWorld
           "User registered successfully"
           (list_to_map [("_id", JId 3%N); ("name", JStr "Carol");
                         ("email", JStr "carol@example.org");
                         ("bio", JStr ""); ("avatar", JStr "");
                         ("token", JStr "signed-token")])).
  - reflexivity.
  - reflexivity.
  - exists "Carol". split; [reflexivity | discriminate].
  - exists "pw". split; [reflexivity | discriminate].
Defined.

Lemma byEmail_replaced (id : Id) (e : string) (u r' : Stored.t)
      (l : list Stored.t) :
  User.lookup id l = Some u ->
  User.byEmail (Some e) l = Some u ->
  Stored.email r' = e ->
  User.byEmail (Some e) ((fun x => if User.hasId id x then r' else x) <$> l)
  = Some r'.
Proof.
  intros Hl He Hr'. unfold User.byEmail, User.lookup in *.
  induction l as [|x l IH]; [discriminate|].
  cbn [fmap list_fmap List.find] in *.
  destruct (User.hasId id x) eqn:Hx.
  - simpl. rewrite Hr', String.eqb_refl. reflexivity.
  - destruct (User.hasEmail (Some e) x) eqn:Hex.
    + assert (x = u) by congruence. subst x.
      apply find_some in Hl as [_ Hid]. rewrite Hid in Hx. discriminate.
    + auto.
Qed.

(** X18. After an update that changes the password, login goes by the
    new password: for a stored user that login finds by its email, a
    login with that email is answered 200 when the entered password
    verifies against the hash of the new password, and 401 when it does
    not. *)
Theorem password_change_then_login `{Collaborators} (req req' : Request.t)
        (w : World) (u : Stored.t) (p q msg : string)
        (data : gmap string JsVal) :
  User.lookup (Request.user req) (users w) = Some u ->
  User.byEmail (Some (Stored.email u)) (users w) = Some u ->
  Stored.email u <> "" ->
  Request.body req !! "password" = Some p -> p <> "" ->
  fst (updateProfile req w) = Json 200 true msg (Some data) ->
  Request.body req' !! "email" = Some (Stored.email u) ->
  Request.body req' !! "password" = Some q -> q <> "" ->
  (comparePassword q (hashPassword p) = true ->
   exists data',
     fst (login req' (snd (updateProfile req w)))
     = Json 200 true "Login successful" (Some data')
     /\ data' !! "_id" = Some (JId (Stored._id u)))
  /\ (comparePassword q (hashPassword p) = false ->
      fst (login req' (snd (updateProfile req w)))
      = ApiResponse.error 401 "Invalid email or password").
Proof.
  intros Hu Hbe Hne Hp Hp' Hr He' Hq Hq'.
  destruct (updateProfile_users req w u Hu)
    as [(_ & e & He) | (avatar & l & Hrun & _)].
  { rewrite He in Hr. discriminate. }
  rewrite Hrun.
  assert (Hfound : User.byEmail (Some (Stored.email u))
                     (users (snd (savedOutcome req w u avatar l)))
                   = Some (recordSaved req u avatar)).
  { unfold savedOutcome. cbn [snd users].
    rewrite (lookup_hasId _ _ _ Hu).
    apply (byEmail_replaced _ _ u); auto. }
  assert (Hpw : Stored.password (recordSaved req u avatar) = hashPassword p).
  { unfold recordSaved. cbn [Stored.password]. rewrite Hp. simpl.
    apply String.eqb_neq in Hp'. rewrite Hp'. reflexivity. }
  destruct (login_cases req' (snd (savedOutcome req w u avatar l)))
    as [[Hm _] | (_ & _ & Hl)].
  - exfalso. unfold missing in Hm. rewrite He', Hq in Hm.
    destruct Hm as [[Hm | Hm] | [Hm | Hm]]; congruence.
  - rewrite He', Hfound, Hq, Hpw in Hl. cbn [default from_option id] in Hl.
    destruct (comparePassword q (hashPassword p)); cbv beta iota in Hl;
      rewrite Hl; split; try discriminate.
    + intros _. unfold loggedIn, ApiResponse.success. cbn [fst].
      eexists. split; [reflexivity|].
      cbn [list_to_map foldr fst snd]. apply lookup_insert_eq.
    + intros _. reflexivity.
Qed.

Lemma password_change_then_login_witness :
  let req := Request.mk {[ "password" := "fresh" ]} None 1%N in
  let w' := snd (@updateProfile (demoCollaborators true true) req demoWorld) in
  let login_with q :=
    fst (@login (demoCollaborators true true)
           (Request.mk {[ "email" := "alice@example.org"; "password" := q ]}
                       None 0%N) w') in
  (exists data', login_with "fresh"
                 = Json 200 true "Login successful" (Some data')
                 /\ data' !! "_id" = Some (JId 1%N))
  /\ login_with "secret" = ApiResponse.error 401 "Invalid email or password".
Proof.
  intros req w' login_with. split.
  - apply (@password_change_then_login (demoCollaborators true true) req
             (Request.mk {[ "email" := "alice@example.org";
                            "password" := "fresh" ]} None 0%N)
             demoWorld alice "fresh" "fresh" "Profile updated successfully"
             (list_to_map [("_id", JId 1%N); ("name", JStr "Alice");
                           ("email", JStr "alice@example.org");
                           ("bio", JStr "hello");
                           ("avatar", JStr "uploads/avatars/old.png")]));
      try reflexivity; discriminate.
  - apply (@password_change_then_login (demoCollaborators true true) req
             (Request.mk {[ "email" := "alice@example.org";
                            "password" := "secret" ]} None 0%N)
             demoWorld alice "fresh" "secret" "Profile updated successfully"
             (list_to_map [("_id", JId 1%N); ("name", JStr "Alice");
                           ("email", JStr "alice@example.org");
                           ("bio", JStr "hello");
                           ("avatar", JStr "uploads/avatars/old.png")]));
      try reflexivity; discriminate.
Defined.

(** ** Invariants of the collection *)

Lemma byEmail_none_notin (e : string) (l : list Stored.t) :
  User.byEmail (Some e) l = None -> e ∉ Stored.email <$> l.
Proof.
  intros Hf Hin. apply list_elem_of_fmap in Hin as (x & -> & Hx).
  apply list_elem_of_In in Hx.
  pose proof (find_none _ _ Hf x Hx) as Hne. simpl in Hne.
  rewrite String.eqb_refl in Hne. discriminate.
Qed.

Lemma freshId_notin (l : list Stored.t) : User.freshId l ∉ Stored._id <$> l.
Proof.
  intros Hin. apply list_elem_of_fmap in Hin as (x & Heq & Hx).
  apply list_elem_of_In in Hx. pose proof (freshId_above l x Hx) as Hlt.
  rewrite <- Heq in Hlt. exact (N.lt_irrefl _ Hlt).
Qed.

Lemma NoDup_snoc {A} (l : list A) (x : A) :
  NoDup l -> x ∉ l -> NoDup (l ++ [x]).
Proof.
  intros Hnd Hx. apply NoDup_app. split; [exact Hnd|]. split.
  - intros y Hy Hy'. apply list_elem_of_singleton in Hy'. subst. auto.
  - apply NoDup_singleton.
Qed.

(** X19. register and updateProfile keep the collection well formed:
    when identifiers and emails are unique among the stored users before
    the call, they are unique after it, whatever the request and
    whatever the media host does. *)
Theorem handlers_keep_users_unique `{Collaborators} (req : Request.t)
        (w : World) :
  uniqueUsers (users w) ->
  uniqueUsers (users (snd (register req w)))
  /\ uniqueUsers (users (snd (updateProfile req w))).
Proof.
  intros [Hids Hemails]. split.
  - destruct (register_cases req w)
      as [Hc | [Hc | (_ & (e & He & _) & _ & Hu & Hc)]]; rewrite Hc;
      try (split; assumption).
    assert (Hcreated : forall avatar l,
               uniqueUsers (users (snd (createStep req w avatar l)))).
    { intros avatar l.
      destruct (createStep_cases req w avatar l) as [[_ Heq] | (e' & _ & Heq)];
        rewrite Heq; [|split; assumption].
      unfold createdOutcome, uniqueUsers. cbn [snd users].
      rewrite !fmap_app. cbn [fmap list_fmap]. split; apply NoDup_snoc; auto.
      - unfold recordCreated. cbn [Stored._id]. apply freshId_notin.
      - unfold recordCreated. cbn [Stored.email]. rewrite He in *.
        cbn [default]. apply byEmail_none_notin. exact Hu. }
    destruct (Request.file req) as [file|]; [|apply Hcreated].
    destruct (uploadOutcome (log w) (File.buffer file) "avatars");
      [split; assumption | apply Hcreated].
  - destruct (User.lookup (Request.user req) (users w)) as [u|] eqn:Hu.
    + destruct (updateProfile_users req w u Hu)
        as [(Hus & _) | (avatar & l & Hrun & _)].
      * rewrite Hus. split; assumption.
      * rewrite Hrun. unfold savedOutcome, uniqueUsers. cbn [snd users].
        rewrite (lookup_hasId _ _ _ Hu). split.
        -- rewrite replace_ids; [exact Hids|].
           unfold recordSaved. cbn [Stored._id]. exact (lookup_hasId _ _ _ Hu).
        -- rewrite (replace_unique _ u); auto.
    + rewrite (updateProfile_not_found req w Hu). split; assumption.
Qed.

Lemma handlers_keep_users_unique_witness :
  let req := Request.mk {[ "name" := "Carol"; "email" := "carol@example.org";
                           "password" := "pw" ]} (Some demoFile) 1%N in
  uniqueUsers (users (snd (@register (demoCollaborators true true) req
                                     demoWorld)))
  /\ uniqueUsers (users (snd (@updateProfile (demoCollaborators true true) req
                                             demoWorld))).
Proof.
  intros req.
  apply (@handlers_keep_users_unique (demoCollaborators true true) req
           demoWorld).
  split.
  - apply (NoDup_cons_2 1%N [2%N]); [|apply NoDup_singleton].
    intros Hin. apply list_elem_of_singleton in Hin. discriminate.
  - apply (NoDup_cons_2 "alice@example.org" ["bob@example.org"]);
      [|apply NoDup_singleton].
    intros Hin. apply list_elem_of_singleton in Hin. discriminate.
Defined.

(** ** Splitting and joining *)

Lemma append_cons (c : ascii) (a b : string) :
  String c a +:+ b = String c (a +:+ b).
Proof. reflexivity. Qed.

Lemma append_nil_l (b : string) : "" +:+ b = b.
Proof. reflexivity. Qed.

Lemma append_assoc (a b c : string) : (a +:+ b) +:+ c = a +:+ (b +:+ c).
Proof.
  induction a as [|x a IH]; [reflexivity|].
  rewrite !append_cons, IH. reflexivity.
Qed.

Lemma occurrences_append (c : ascii) (a b : string) :
  occurrences c (a +:+ b) = occurrences c a + occurrences c b.
Proof.
  induction a as [|x a IH]; [reflexivity|].
  rewrite append_cons. simpl. rewrite IH. lia.
Qed.

Lemma split_cons_sep (sep : ascii) (s : string) :
  Js.split sep (String sep s) = "" :: Js.split sep s.
Proof. simpl. rewrite Ascii.eqb_refl. reflexivity. Qed.

Lemma split_cons_other (sep c : ascii) (s : string) :
  c <> sep ->
  exists seg segs,
    Js.split sep s = seg :: segs
    /\ Js.split sep (String c s) = String c seg :: segs.
Proof.
  intros Hc. destruct (Js.split sep s) as [|seg segs] eqn:Hs.
  - exfalso. exact (split_nonempty _ _ Hs).
  - exists seg, segs. split; [reflexivity|]. simpl.
    apply Ascii.eqb_neq in Hc. rewrite Hc, Hs. reflexivity.
Qed.

Lemma join_cons2 (sep a b : string) (l : list string) :
  Js.join sep (a :: b :: l) = a +:+ sep +:+ Js.join sep (b :: l).
Proof. reflexivity. Qed.

Lemma split_spec (sep : ascii) (s : string) :
  Js.join (String sep "") (Js.split sep s) = s
  /\ Forall (fun seg => occurrences sep seg = 0) (Js.split sep s)
  /\ length (Js.split sep s) = S (occurrences sep s).
Proof.
  induction s as [|c s (IHj & IHf & IHl)].
  - simpl. repeat split. constructor; [reflexivity | constructor].
  - destruct (Ascii.eqb_spec c sep) as [-> | Hc].
    + rewrite split_cons_sep. split; [|split].
      * destruct (Js.split sep s) as [|seg segs] eqn:Hs.
        { exfalso. exact (split_nonempty _ _ Hs). }
        rewrite join_cons2, IHj. reflexivity.
      * constructor; [reflexivity | exact IHf].
      * simpl. rewrite Ascii.eqb_refl, IHl. reflexivity.
    + destruct (split_cons_other sep c s Hc) as (seg & segs & Hs & Hs').
      rewrite Hs' in *. rewrite Hs in *. split; [|split].
      * destruct segs as [|seg' segs].
        { simpl in *. congruence. }
        rewrite join_cons2 in *. rewrite append_cons. congruence.
      * apply Forall_cons in IHf as [Hseg Hsegs].
        constructor; [|exact Hsegs]. simpl.
        apply Ascii.eqb_neq in Hc. rewrite Hc. exact Hseg.
      * simpl in *. apply Ascii.eqb_neq in Hc. rewrite Hc. exact IHl.
Qed.

Lemma split_without (sep : ascii) (s : string) :
  occurrences sep s = 0 -> Js.split sep s = [s].
Proof.
  intros Hs. destruct (split_spec sep s) as (Hj & _ & Hl).
  rewrite Hs in Hl. destruct (Js.split sep s) as [|seg [|seg' segs]];
    try discriminate.
  simpl in Hj. congruence.
Qed.

(** X20. Splitting a string on a character and joining the segments with
    that character gives the string back; no segment holds the
    character, there is one segment more than there are occurrences of
    the character, and a string without the character is its own single
    segment. *)
Theorem join_split (sep : ascii) (s : string) :
  Js.join (String sep "") (Js.split sep s) = s
  /\ Forall (fun seg => occurrences sep seg = 0) (Js.split sep s)
  /\ length (Js.split sep s) = S (occurrences sep s)
  /\ (occurrences sep s = 0 -> Js.split sep s = [s]).
Proof.
  destruct (split_spec sep s) as (Hjoin & Hsegs & Hlen).
  split; [exact Hjoin|]. split; [exact Hsegs|]. split; [exact Hlen|].
  apply split_without.
Qed.

Lemma split_append (sep : ascii) (a b : string) :
  Js.split sep (a +:+ String sep b) = Js.split sep a ++ Js.split sep b.
Proof.
  induction a as [|c a IH].
  - rewrite append_nil_l. apply split_cons_sep.
  - rewrite append_cons. destruct (Ascii.eqb_spec c sep) as [-> | Hc].
    + rewrite !split_cons_sep, IH. reflexivity.
    + destruct (split_cons_other sep c a Hc) as (seg & segs & Hs & Hs').
      destruct (split_cons_other sep c (a +:+ String sep b) Hc)
        as (seg2 & segs2 & Hs2 & Hs2').
      rewrite Hs', Hs2'. rewrite IH, Hs in Hs2. simpl in Hs2.
      injection Hs2 as <- <-. reflexivity.
Qed.

Lemma first_split_prefix (s : string) :
  exists rest, s = Js.first (Js.split "." s) +:+ rest.
Proof.
  destruct (first_split_dot s) as (rest & Heq & _). eauto.
Qed.

Lemma join_suffix (sep : string) (l1 l2 : list string) :
  l2 <> [] -> exists pre, Js.join sep (l1 ++ l2) = pre +:+ Js.join sep l2.
Proof.
  intros Hne. induction l1 as [|a l1 (pre & IH)].
  - exists "". reflexivity.
  - destruct (l1 ++ l2) as [|b l] eqn:Hl.
    + destruct l1; [simpl in Hl; contradiction | discriminate].
    + exists (a +:+ sep +:+ pre). simpl app. rewrite Hl, join_cons2, IH.
      rewrite !append_assoc. reflexivity.
Qed.

Lemma occurrences_join2 (c : ascii) (l : list string) :
  Forall (fun seg => occurrences c seg = 0) l -> length l <= 2 ->
  occurrences c (Js.join (String c "") l) <= 1.
Proof.
  intros Hf Hlen. destruct l as [|a [|b [|x l]]]; simpl in Hlen; try lia.
  - simpl. lia.
  - apply Forall_cons in Hf as [Ha _]. simpl. lia.
  - apply Forall_cons in Hf as [Ha Hf]. apply Forall_cons in Hf as [Hb _].
    rewrite join_cons2, !occurrences_append. simpl.
    rewrite Ascii.eqb_refl. simpl in Hb. lia.
Qed.

(** X21. Whatever the stored avatar, the identifier derived from it has
    no dot and at most one slash, and it is a part of the avatar
    string: the avatar is the identifier with some text before it and
    some text after it. *)
Theorem oldPublicId_shape (avatar : string) :
  occurrences "." (oldPublicId avatar) = 0
  /\ occurrences "/" (oldPublicId avatar) <= 1
  /\ exists before after, avatar = before +:+ oldPublicId avatar +:+ after.
Proof.
  unfold oldPublicId.
  set (segs := Js.split "/" avatar).
  set (joined := Js.join "/" (Js.slice_last 2 segs)).
  destruct (split_spec "/" avatar) as (Hj & Hf & Hl). fold segs in Hj, Hf, Hl.
  destruct (first_split_prefix joined) as (rest & Hrest).
  assert (Hlast : Js.slice_last 2 segs <> [] /\ length (Js.slice_last 2 segs) <= 2).
  { unfold Js.slice_last. split.
    - intros Hnil. apply (f_equal length) in Hnil.
      rewrite length_drop in Hnil. simpl in Hnil. lia.
    - rewrite length_drop. lia. }
  destruct Hlast as [Hne Hlen]. split; [|split].
  - destruct (split_spec "." joined) as (_ & Hfd & _).
    destruct (Js.split "." joined) as [|seg l] eqn:Hs.
    + exfalso. exact (split_nonempty _ _ Hs).
    + apply Forall_cons in Hfd as [Hseg _]. exact Hseg.
  - assert (Hjoined : occurrences "/" joined <= 1).
    { apply occurrences_join2; [|exact Hlen].
      unfold Js.slice_last. apply Forall_drop. exact Hf. }
    rewrite Hrest, occurrences_append in Hjoined. lia.
  - destruct (join_suffix "/" (take (length segs - 2) segs)
                          (Js.slice_last 2 segs) Hne) as (pre & Hpre).
    unfold Js.slice_last in Hpre at 1. rewrite take_drop in Hpre.
    fold joined in Hpre. exists pre, rest.
    rewrite <- Hrest, <- Hpre. symmetry. exact Hj.
Qed.

(** X22. For a stored path of the usual shape, some text, a slash, a
    folder, a slash, a file name and its extension, where folder, name
    and extension hold no slash and no dot, the identifier derived is
    the folder, a slash and the file name without its extension: the
    identifier of the specification. *)
Theorem oldPublicId_well_shaped (before folder name ext : string) :
  occurrences "/" folder = 0 -> occurrences "." folder = 0 ->
  occurrences "/" name = 0 -> occurrences "." name = 0 ->
  occurrences "/" ext = 0 -> occurrences "." ext = 0 ->
  let avatar :=
    before +:+ "/" +:+ folder +:+ "/" +:+ name +:+ "." +:+ ext in
  oldPublicId avatar = folder +:+ "/" +:+ name
  /\ specPublicId avatar = folder +:+ "/" +:+ name.
Proof.
  intros Hf1 Hf2 Hn1 Hn2 He1 He2 avatar.
  assert (Hfile : occurrences "/" (name +:+ "." +:+ ext) = 0).
  { rewrite !occurrences_append, Hn1, He1. reflexivity. }
  assert (Hsegs : Js.slice_last 2 (Js.split "/" avatar)
                  = [folder; name +:+ "." +:+ ext]).
  { unfold avatar.
    change (before +:+ "/" +:+ folder +:+ "/" +:+ name +:+ "." +:+ ext)
      with (before +:+ String "/" (folder +:+ String "/"
                                     (name +:+ "." +:+ ext))).
    rewrite !split_append, (split_without _ _ Hf1), (split_without _ _ Hfile).
    unfold Js.slice_last. rewrite length_app. simpl length.
    replace (length (Js.split "/" before) + 2 - 2)
      with (length (Js.split "/" before)) by lia.
    apply drop_app_length. }
  assert (Hstem : occurrences "." (folder +:+ "/" +:+ name) = 0).
  { rewrite !occurrences_append, Hf2, Hn2. reflexivity. }
  split.
  - unfold oldPublicId. rewrite Hsegs, join_cons2.
    change (Js.join "/" [name +:+ "." +:+ ext]) with (name +:+ "." +:+ ext).
    replace (folder +:+ "/" +:+ name +:+ "." +:+ ext)
      with ((folder +:+ "/" +:+ name) +:+ String "." ext)
      by (rewrite !append_assoc; reflexivity).
    rewrite split_append, (split_without _ _ Hstem). reflexivity.
  - unfold specPublicId. rewrite Hsegs. cbv zeta.
    cbn [removelast List.last app]. unfold stripExtension.
    change (name +:+ "." +:+ ext) with (name +:+ String "." ext).
    rewrite split_append, (split_without _ _ Hn2), (split_without _ _ He2).
    reflexivity.
Qed.

Lemma oldPublicId_well_shaped_witness :
  oldPublicId "https://cdn.example/v17/avatars/abc123.png" = "avatars/abc123"
  /\ specPublicId "https://cdn.example/v17/avatars/abc123.png"
     = "avatars/abc123".
Proof.
  apply (oldPublicId_well_shaped "https://cdn.example/v17" "avatars" "abc123"
                                 "png"); reflexivity.
Defined.
